(** * post_ood_logs_to_access_mms.py: a shallow embedding and its properties

    The script discovers the Open OnDemand access-log location by running
    pipelines of external commands, falling back to [conf.ini] and then to a
    default.  This development embeds the two functions of the script
    ([__run_pipeline], [__find_conf_value]) and its top-level driver, over a
    model of the Python library calls they make ([subprocess.Popen],
    [configparser.ConfigParser], [bytes.decode], [str.rstrip], [print]).

    Python text is a list of Unicode code points, bytes are [Byte.byte]s,
    exceptions are values of [PyExc], and the effects of the script (the one
    [ConfigParser] object, the file [conf.ini], the processes it starts and
    what it prints) are threaded through a state-and-exception monad whose
    state survives a raised exception. *)

From Stdlib Require Import List String Ascii ZArith NArith Lia Bool.
From Stdlib.Strings Require Import Byte.
Import ListNotations.

Set Implicit Arguments.

(* ===================================================================== *)
(** ** Python text and bytes *)
(* ===================================================================== *)

Module PyStr.

Local Open Scope N_scope.

(** A [str] is a sequence of code points; a [bytes] is a sequence of
    octets. *)
Definition pystr := list N.
Definition bytes := list byte.

(** String literals of the script (all ASCII). *)
Definition py (s : string) : pystr :=
  map N_of_ascii (list_ascii_of_string s).

Definition b (s : string) : bytes := list_byte_of_string s.

Fixpoint str_eqb (x y : pystr) : bool :=
  match x, y with
  | [], [] => true
  | c :: x', d :: y' => N.eqb c d && str_eqb x' y'
  | _, _ => false
  end.

(** [sep.join(parts)]. *)
Fixpoint join (sep : pystr) (parts : list pystr) : pystr :=
  match parts with
  | [] => []
  | [p] => p
  | p :: rest => p ++ sep ++ join sep rest
  end.

(** [c in s] for a single character [c]. *)
Definition contains (c : N) (s : pystr) : bool := existsb (N.eqb c) s.

(** [str.isspace] on one character: the code points with the Unicode
    White_Space property or bidirectional class WS, B or S. *)
Definition isspace (c : N) : bool :=
  ((0x09 <=? c) && (c <=? 0x0D)) || ((0x1C <=? c) && (c <=? 0x20))
  || (c =? 0x85) || (c =? 0xA0) || (c =? 0x1680)
  || ((0x2000 <=? c) && (c <=? 0x200A))
  || (c =? 0x2028) || (c =? 0x2029) || (c =? 0x202F) || (c =? 0x205F)
  || (c =? 0x3000).

(** [s.rstrip()]: every trailing whitespace character is removed. *)
Fixpoint rstrip (s : pystr) : pystr :=
  match s with
  | [] => []
  | c :: t =>
      match rstrip t with
      | [] => if isspace c then [] else [c]
      | t' => c :: t'
      end
  end.

(** The reading "strip the newline at the end" of the comment in
    [__run_pipeline]: exactly one final line feed is removed. *)
Fixpoint strip_one_newline (s : pystr) : pystr :=
  match s with
  | [] => []
  | [c] => if c =? 0x0A then [] else [c]
  | c :: t => c :: strip_one_newline t
  end.

(** *** [bytes.decode('utf-8')], strict error handling *)

Definition cont (x : N) : bool := (0x80 <=? x) && (x <=? 0xBF).
Definition between (lo hi x : N) : bool := (lo <=? x) && (x <=? hi).
Definition low6 (x : N) : N := N.land x 0x3F.

(** [None] stands for [UnicodeDecodeError]: an invalid start byte, a
    missing or invalid continuation byte, an overlong form, a surrogate
    or a code point above U+10FFFF. *)
Fixpoint utf8 (bs : list N) : option pystr :=
  match bs with
  | [] => Some []
  | b0 :: r0 =>
      if b0 <? 0x80 then option_map (cons b0) (utf8 r0)
      else if between 0xC2 0xDF b0 then
        match r0 with
        | b1 :: r1 =>
            if cont b1
            then option_map
                   (cons (N.lor (N.shiftl (N.land b0 0x1F) 6) (low6 b1)))
                   (utf8 r1)
            else None
        | _ => None
        end
      else if between 0xE0 0xEF b0 then
        match r0 with
        | b1 :: b2 :: r2 =>
            let lo := if b0 =? 0xE0 then 0xA0 else 0x80 in
            let hi := if b0 =? 0xED then 0x9F else 0xBF in
            if between lo hi b1 && cont b2
            then option_map
                   (cons (N.lor (N.shiftl (N.land b0 0x0F) 12)
                            (N.lor (N.shiftl (low6 b1) 6) (low6 b2))))
                   (utf8 r2)
            else None
        | _ => None
        end
      else if between 0xF0 0xF4 b0 then
        match r0 with
        | b1 :: b2 :: b3 :: r3 =>
            let lo := if b0 =? 0xF0 then 0x90 else 0x80 in
            let hi := if b0 =? 0xF4 then 0x8F else 0xBF in
            if between lo hi b1 && cont b2 && cont b3
            then option_map
                   (cons (N.lor (N.shiftl (N.land b0 0x07) 18)
                            (N.lor (N.shiftl (low6 b1) 12)
                               (N.lor (N.shiftl (low6 b2) 6) (low6 b3)))))
                   (utf8 r3)
            else None
        | _ => None
        end
      else None
  end.

Definition decode_utf8 (bs : bytes) : option pystr :=
  utf8 (map Byte.to_N bs).

End PyStr.
Export PyStr.

(* ===================================================================== *)
(** ** Exceptions *)
(* ===================================================================== *)

(** The exception classes the script and the library calls it makes can
    raise.  [OSError] stands for every failure to start a process other
    than a missing executable, [ParsingError] for every error of the
    [configparser] reader. *)
Inductive PyExc : Type :=
| TypeError
| AttributeError
| IndexError
| KeyError
| ValueError
| FileNotFoundError
| OSError
| UnicodeDecodeError
| NoSectionError
| NoOptionError
| InterpolationSyntaxError
| InterpolationMissingOptionError
| InterpolationDepthError
| ParsingError.

Definition Exc (A : Type) : Type := (PyExc + A)%type.


(** Sequencing of fallible library calls. *)
Definition exc_bind {A B : Type} (x : Exc A) (f : A -> Exc B) : Exc B :=
  match x with
  | inl e => inl e
  | inr a => f a
  end.

Definition exc_map {A B : Type} (f : A -> B) (x : Exc A) : Exc B :=
  exc_bind x (fun a => inr (f a)).

(* ===================================================================== *)
(** ** [configparser.ConfigParser(allow_no_value=True)] *)
(* ===================================================================== *)

Module Configparser.

Local Open Scope N_scope.

(** The options of one section, in insertion order; a valueless option
    (allowed by [allow_no_value=True]) holds [None]. *)
Definition Options := list (pystr * option pystr).

(** The parser object: its [_defaults] (the [DEFAULT] section) and its
    [_sections], both ordered dictionaries. *)
Record ConfigParser : Type := {
  defaults : Options;
  sections : list (pystr * Options)
}.

Definition empty_parser : ConfigParser := {| defaults := []; sections := [] |}.

Definition default_section : pystr := py "DEFAULT".
Definition MAX_INTERPOLATION_DEPTH : nat := 10.

(** [d[k]] and [d[k] = v] on an ordered dictionary with [str] keys: an
    existing key keeps its position, a new key is appended. *)
Fixpoint lookup {V : Type} (k : pystr) (d : list (pystr * V)) : option V :=
  match d with
  | [] => None
  | (k', v) :: d' => if str_eqb k k' then Some v else lookup k d'
  end.

Fixpoint assign {V : Type} (k : pystr) (v : V) (d : list (pystr * V))
  : list (pystr * V) :=
  match d with
  | [] => [(k, v)]
  | (k', v') :: d' =>
      if str_eqb k k' then (k, v) :: d' else (k', v') :: assign k v d'
  end.

Definition has_section (c : ConfigParser) (section : pystr) : bool :=
  match lookup section (sections c) with
  | Some _ => true
  | None => false
  end.

(** [conf[section]]: the section proxy, here only whether it exists. *)
Definition getitem (c : ConfigParser) (section : pystr) : Exc unit :=
  if negb (str_eqb section default_section) && negb (has_section c section)
  then inl KeyError
  else inr tt.

(** *** Basic interpolation *)

Definition PERCENT : N := 37.
Definition LPAREN : N := 40.
Definition RPAREN : N := 41.
Definition LOWER_S : N := 115.

(** The longest prefix without a closing parenthesis, and what follows. *)
Fixpoint span_key (s : pystr) : pystr * pystr :=
  match s with
  | [] => ([], [])
  | c :: r =>
      if c =? RPAREN then ([], s)
      else let (name, rest) := span_key r in (c :: name, rest)
  end.

(** The regular expression [%\(([^)]+)\)s] matched at the start of [s]:
    the captured name and the length of the match. *)
Definition match_key (s : pystr) : option (pystr * nat) :=
  match s with
  | c0 :: c1 :: r =>
      if (c0 =? PERCENT) && (c1 =? LPAREN) then
        match span_key r with
        | ((_ :: _) as name, c2 :: c3 :: _) =>
            if (c2 =? RPAREN) && (c3 =? LOWER_S)
            then Some (name, (List.length name + 4)%nat)
            else None
        | _ => None
        end
      else None
  | _ => None
  end.

(** [value.replace('%%', '')]. *)
Fixpoint drop_escaped (s : pystr) : pystr :=
  match s with
  | [] => []
  | c :: r =>
      match r with
      | c' :: r' =>
          if (c =? PERCENT) && (c' =? PERCENT) then drop_escaped r'
          else c :: drop_escaped r
      | [] => [c]
      end
  end.

(** [_KEYCRE.sub('', s)]: every leftmost match is removed; [skip] counts
    the characters of the current match still to be passed over. *)
Fixpoint drop_keys (skip : nat) (s : pystr) : pystr :=
  match s with
  | [] => []
  | c :: r =>
      match skip with
      | S n => drop_keys n r
      | O =>
          match match_key s with
          | Some (_, len) => drop_keys (len - 1) r
          | None => c :: drop_keys 0 r
          end
      end
  end.

(** [BasicInterpolation.before_set]. *)
Definition before_set (value : pystr) : Exc pystr :=
  if contains PERCENT (drop_keys 0 (drop_escaped value))
  then inl ValueError
  else inr value.

Section WithLower.

(** [str.lower], which [optionxform] applies to every option name. *)
Variable lower : pystr -> pystr.

Definition optionxform (option_ : pystr) : pystr := lower option_.

(** [BasicInterpolation._interpolate_some]: [budget] is the number of
    nesting levels still allowed ([depth > MAX_INTERPOLATION_DEPTH] when it
    is exhausted), [map] the chained lookup in the section and the
    defaults, and the inner loop walks [rest] from left to right. *)
Fixpoint interpolate_some (budget : nat)
    (map : pystr -> option (option pystr)) (rest : pystr) : Exc pystr :=
  match budget with
  | O => inl InterpolationDepthError
  | S budget' =>
      (fix loop (skip : nat) (rest : pystr) {struct rest} : Exc pystr :=
         match rest with
         | [] => inr []
         | c :: r =>
             match skip with
             | S n => loop n r
             | O =>
                 if c =? PERCENT then
                   match r with
                   | [] => inl InterpolationSyntaxError
                   | c1 :: _ =>
                       if c1 =? PERCENT then
                         exc_map (cons PERCENT) (loop 1%nat r)
                       else if c1 =? LPAREN then
                         match match_key rest with
                         | None => inl InterpolationSyntaxError
                         | Some (name, len) =>
                             match map (optionxform name) with
                             | None => inl InterpolationMissingOptionError
                             | Some None => inl TypeError
                             | Some (Some v) =>
                                 exc_bind
                                   (if contains PERCENT v
                                    then interpolate_some budget' map v
                                    else inr v)
                                   (fun v' =>
                                      exc_map (app v') (loop (len - 1)%nat r))
                             end
                         end
                       else inl InterpolationSyntaxError
                   end
                 else exc_map (cons c) (loop 0%nat r)
             end
         end) 0%nat rest
  end.

(** [BasicInterpolation.before_get]. *)
Definition before_get (map : pystr -> option (option pystr))
    (value : pystr) : Exc pystr :=
  interpolate_some MAX_INTERPOLATION_DEPTH map value.

(** [_unify_values(section, None)]: the section's own options chained
    before the defaults. *)
Definition unify_values (c : ConfigParser) (section : pystr)
  : Exc (pystr -> option (option pystr)) :=
  match lookup section (sections c) with
  | Some sectiondict =>
      inr (fun k => match lookup k sectiondict with
                    | Some v => Some v
                    | None => lookup k (defaults c)
                    end)
  | None =>
      if str_eqb section default_section
      then inr (fun k => lookup k (defaults c))
      else inl NoSectionError
  end.

(** [conf.get(section, option)], with no [fallback] argument. *)
Definition get (c : ConfigParser) (section option_ : pystr)
  : Exc (option pystr) :=
  exc_bind (unify_values c section) (fun d =>
  match d (optionxform option_) with
  | None => inl NoOptionError
  | Some None => inr None
  | Some (Some value) => exc_map Some (before_get d value)
  end).

(** [conf.set(section, option, value)]: a non-empty value goes through
    [before_set]; the section, the option and the value are strings (or
    no value) by their types, so the type checks of the method pass. *)
Definition set (c : ConfigParser) (section option_ : pystr)
    (value : option pystr) : Exc ConfigParser :=
  exc_bind
    (match value with
     | Some ((_ :: _) as v) => exc_map Some (before_set v)
     | _ => inr value
     end) (fun value =>
  match section with
  | [] => inr {| defaults := assign (optionxform option_) value (defaults c);
                 sections := sections c |}
  | _ =>
      if str_eqb section default_section
      then inr {| defaults := assign (optionxform option_) value (defaults c);
                  sections := sections c |}
      else
        match lookup section (sections c) with
        | None => inl NoSectionError
        | Some sectdict =>
            inr {| defaults := defaults c;
                   sections :=
                     assign section
                       (assign (optionxform option_) value sectdict)
                       (sections c) |}
        end
  end).

End WithLower.

(** *** [conf.write(fp)] *)

Definition LF : N := 10.
Definition TAB : N := 9.

(** [str(value).replace('\n', '\n\t')]. *)
Fixpoint indent_newlines (s : pystr) : pystr :=
  match s with
  | [] => []
  | c :: r =>
      if c =? LF then LF :: TAB :: indent_newlines r
      else c :: indent_newlines r
  end.

Definition write_option (item : pystr * option pystr) : pystr :=
  match item with
  | (key, Some value) => key ++ py " = " ++ indent_newlines value ++ [LF]
  | (key, None) => key ++ [LF]
  end.

Definition write_section (section_name : pystr) (items : Options) : pystr :=
  py "[" ++ section_name ++ py "]" ++ [LF]
  ++ List.concat (map write_option items) ++ [LF].

Definition write (c : ConfigParser) : pystr :=
  (match defaults c with
   | [] => []
   | _ => write_section default_section (defaults c)
   end)
  ++ List.concat (map (fun s => write_section (fst s) (snd s)) (sections c)).

End Configparser.

(* ===================================================================== *)
(** ** [subprocess]: processes as the script sees them *)
(* ===================================================================== *)

Module Subprocess.

(** What one external command does once started, from its start to its
    end: the bytes it writes to its standard output and standard error,
    and its exit status.  The record is that of a process that has
    terminated; a command that never ends has none, and [communicate]
    would then never return.  The hosts described here are those whose
    commands terminate and leave [conf.ini] alone. *)
Record Completed : Type := {
  out : bytes;
  err : bytes;
  status : Z
}.

(** The [stdout=] and [stderr=] arguments the script passes to [Popen]. *)
Inductive Redirect : Type := PIPE | DEVNULL.

(** A [Popen] object after the process has run: the arguments it was
    created with, and what the parent can read back.  A stream is readable
    ([Some]) only when it was created with [PIPE]. *)
Record Popen : Type := {
  args : list pystr;
  stdin : option bytes;
  stdout_arg : Redirect;
  stderr_arg : Redirect;
  stdout : option bytes;
  stderr : option bytes;
  returncode : Z
}.

Definition attach (r : Redirect) (data : bytes) : option bytes :=
  match r with
  | PIPE => Some data
  | DEVNULL => None
  end.

(** [p.communicate()]: the pair of the readable streams, [None] for a
    stream that is not a pipe. *)
Definition communicate (p : Popen) : option bytes * option bytes :=
  (stdout p, stderr p).

End Subprocess.

(* ===================================================================== *)
(** ** The state of a run and the monad of the script *)
(* ===================================================================== *)

(** Everything the script reads or changes: the module-level [conf]
    object, the content of [conf.ini] ([None] when it cannot be opened),
    the processes started so far (oldest first) and the lines printed. *)
Record World : Type := {
  w_conf : Configparser.ConfigParser;
  w_file : option pystr;
  w_procs : list Subprocess.Popen;
  w_printed : list pystr
}.

Inductive Outcome (A : Type) : Type :=
| Return (a : A)
| Raise (e : PyExc).
Arguments Return {A} a.
Arguments Raise {A} e.

(** A statement of the script: it ends by returning or by raising, and
    leaves a state behind in both cases. *)
Definition M (A : Type) : Type := World -> Outcome A * World.

Definition ret {A : Type} (a : A) : M A := fun w => (Return a, w).

Definition raise {A : Type} (e : PyExc) : M A := fun w => (Raise e, w).

Definition bind {A B : Type} (m : M A) (f : A -> M B) : M B :=
  fun w =>
    match m w with
    | (Return a, w') => f a w'
    | (Raise e, w') => (Raise e, w')
    end.

Definition lift {A : Type} (x : Exc A) : M A :=
  match x with
  | inl e => raise e
  | inr a => ret a
  end.

Declare Scope py_scope.
Delimit Scope py_scope with py.
Notation "x <- m ;; k" := (bind m (fun x => k))
  (at level 61, m at next level, right associativity) : py_scope.
Notation "m ;; k" := (bind m (fun _ => k))
  (at level 61, right associativity) : py_scope.
Local Open Scope py_scope.

Scheme Boolean Equality for PyExc.

(** [try: body except exc: handler]. *)
Definition try_except {A : Type} (body : M A) (exc : PyExc) (handler : M A)
  : M A :=
  fun w =>
    match body w with
    | (Raise e, w') => if PyExc_beq e exc then handler w' else (Raise e, w')
    | r => r
    end.

(** [print(line)]. *)
Definition print (line : pystr) : M unit :=
  fun w => (Return tt,
            {| w_conf := w_conf w; w_file := w_file w; w_procs := w_procs w;
               w_printed := w_printed w ++ [line] |}).

Definition get_conf : M Configparser.ConfigParser :=
  fun w => (Return (w_conf w), w).

Definition put_conf (c : Configparser.ConfigParser) : M unit :=
  fun w => (Return tt,
            {| w_conf := c; w_file := w_file w; w_procs := w_procs w;
               w_printed := w_printed w |}).

Definition record_process (p : Subprocess.Popen) : M unit :=
  fun w => (Return tt,
            {| w_conf := w_conf w; w_file := w_file w;
               w_procs := w_procs w ++ [p]; w_printed := w_printed w |}).

(** [open(CONF_FILENAME, 'w')] followed by [write(text)], and
    [open(CONF_FILENAME, 'a')] followed by [write(text)]. *)
Definition file_write (text : pystr) : M unit :=
  fun w => (Return tt,
            {| w_conf := w_conf w; w_file := Some text; w_procs := w_procs w;
               w_printed := w_printed w |}).

Definition file_append (text : pystr) : M unit :=
  fun w => (Return tt,
            {| w_conf := w_conf w;
               w_file := Some (match w_file w with
                               | Some old => old ++ text
                               | None => text
                               end);
               w_procs := w_procs w; w_printed := w_printed w |}).

(* ===================================================================== *)
(** ** The script *)
(* ===================================================================== *)

Module Script.

Import Configparser Subprocess.

(** The values a stream of the result dictionary can hold. *)
Inductive PyVal : Type :=
| VNone
| VBytes (data : bytes)
| VStr (text : pystr).

(** Truth value of an object in a condition. *)
Definition truthy (v : PyVal) : bool :=
  match v with
  | VNone => false
  | VBytes [] => false
  | VBytes (_ :: _) => true
  | VStr [] => false
  | VStr (_ :: _) => true
  end.

Definition of_stream (s : option bytes) : PyVal :=
  match s with
  | Some data => VBytes data
  | None => VNone
  end.

(** [v.decode('utf-8').rstrip()]: only [bytes] has a [decode] method. *)
Definition decode_rstrip (v : PyVal) : Exc PyVal :=
  match v with
  | VBytes data =>
      match decode_utf8 data with
      | Some text => inr (VStr (rstrip text))
      | None => inl UnicodeDecodeError
      end
  | _ => inl AttributeError
  end.

(** [str + v]: concatenation to a [str] needs a [str]. *)
Definition concat_str (prefix : pystr) (v : PyVal) : Exc pystr :=
  match v with
  | VStr text => inr (prefix ++ text)
  | _ => inl TypeError
  end.

(** The dictionary [__run_pipeline] returns. *)
Record Results : Type := {
  r_stdout : PyVal;
  r_stderr : PyVal;
  r_code : Z
}.

Definition DEBUG : bool := true.
Definition CONF_FILENAME : pystr := py "conf.ini".

(** The formal parameters of [__find_conf_value], in order. *)
Definition find_conf_value_params : list string :=
  ["conf"; "key"; "pipeline_args"; "default"]%string.

(** An actual argument of a call to [__find_conf_value]. *)
Inductive PyArg : Type :=
| AConf
| AStr (s : pystr)
| APipeline (p : list (list pystr)).

(** *** Binding the arguments of a call

    Positional arguments fill the first parameters; each keyword argument
    must name a parameter that is not bound yet; every parameter must end
    up bound.  Any violation is a [TypeError] raised before the body
    runs. *)
Fixpoint bind_positional (params : list string) (pos : list PyArg)
  : Exc (list (string * PyArg)) :=
  match pos, params with
  | [], _ => inr []
  | a :: pos', p :: params' =>
      exc_map (cons (p, a)) (bind_positional params' pos')
  | _ :: _, [] => inl TypeError
  end.

Definition bound_to (name : string) (bound : list (string * PyArg))
  : option PyArg :=
  option_map snd (find (fun b => String.eqb name (fst b)) bound).

Fixpoint bind_keywords (params : list string)
    (bound kwargs : list (string * PyArg)) : Exc (list (string * PyArg)) :=
  match kwargs with
  | [] => inr bound
  | (name, a) :: rest =>
      if negb (existsb (String.eqb name) params) then inl TypeError
      else
        match bound_to name bound with
        | Some _ => inl TypeError
        | None => bind_keywords params (bound ++ [(name, a)]) rest
        end
  end.

Fixpoint collect (params : list string) (bound : list (string * PyArg))
  : Exc (list PyArg) :=
  match params with
  | [] => inr []
  | p :: params' =>
      match bound_to p bound with
      | None => inl TypeError
      | Some a => exc_map (cons a) (collect params' bound)
      end
  end.

Definition bind_arguments (params : list string) (pos : list PyArg)
    (kwargs : list (string * PyArg)) : Exc (list PyArg) :=
  exc_bind (bind_positional params pos) (fun bound =>
  exc_bind (bind_keywords params bound kwargs) (fun bound =>
  collect params bound)).

Section WithEnvironment.

(** The environment of a run: [str.lower]; the [configparser] reader, as
    the parser state it leaves and the error it raises, if any, on the
    text of the file; and what [Popen] does with an argument list, which
    is either a failure to start the process or the behaviour of the
    started process, run to its end, on the bytes of its standard input
    ([None]: the standard input is not redirected, the process reads the
    standard input of the script itself). *)
Variable lower : pystr -> pystr.
Variable ini_read : pystr -> option PyExc * ConfigParser.
Variable os_exec : list pystr -> Exc (option bytes -> Completed).

(** [subprocess.Popen(args, stdin=..., stdout=..., stderr=...)]. *)
Definition Popen_ (process_args : list pystr) (stdin_ : option bytes)
    (stdout_ stderr_ : Redirect) : M Popen :=
  behaviour <- lift (os_exec process_args) ;;
  let c := behaviour stdin_ in
  let p := {| args := process_args; stdin := stdin_;
              stdout_arg := stdout_; stderr_arg := stderr_;
              stdout := attach stdout_ (out c);
              stderr := attach stderr_ (err c);
              returncode := status c |} in
  record_process p ;;
  ret p.

(** The [for process_args in args] loop of [__run_pipeline], from the
    current [old_process]. *)
Fixpoint start_all (old_process : option Popen) (args_ : list (list pystr))
  : M (option Popen) :=
  match args_ with
  | [] => ret old_process
  | process_args :: rest =>
      new_process <-
        Popen_ process_args
          (match old_process with
           | None => None
           | Some old => stdout old
           end)
          PIPE DEVNULL ;;
      start_all (Some new_process) rest
  end.

(** The [for stream in results] loop body. *)
Definition convert (v : PyVal) : Exc PyVal :=
  if truthy v then decode_rstrip v else inr v.

(** The line [__run_pipeline] prints before it starts anything. *)
Definition running_line (args_ : list (list pystr)) : pystr :=
  py "Running command `" ++ join (py " | ") (map (join (py " ")) args_)
  ++ py "`".

(** [__run_pipeline], called with the commands as its arguments. *)
Definition run_pipeline (args_ : list (list pystr)) : M Results :=
  (if DEBUG then print (running_line args_) else ret tt) ;;
  old_process <- start_all None args_ ;;
  match old_process with
  | None => raise AttributeError
  | Some last =>
      let (so, se) := communicate last in
      so' <- lift (convert (of_stream so)) ;;
      se' <- lift (convert (of_stream se)) ;;
      ret {| r_stdout := so'; r_stderr := se'; r_code := returncode last |}
  end.

Definition conf_get (section option_ : pystr) : M (option pystr) :=
  c <- get_conf ;; lift (get lower c section option_).

Definition conf_set (section option_ value : pystr) : M unit :=
  c <- get_conf ;;
  c' <- lift (set lower c section option_ (Some value)) ;;
  put_conf c'.

Definition nonempty (v : option pystr) : bool :=
  match v with
  | Some (_ :: _) => true
  | _ => false
  end.

(** [__find_conf_value(conf, key, pipeline_args, default)], where [conf]
    is the one parser object of the run.  [DEBUG] is the constant [True]:
    the message of the first branch is built by concatenation, which
    needs [value] to be a [str]. *)
Definition find_conf_value (key : pystr) (pipeline_args : list (list pystr))
    (default : pystr) : M pystr :=
  (if DEBUG then print (py "Finding conf value of " ++ key) else ret tt) ;;
  pipeline_results <- run_pipeline pipeline_args ;;
  value <-
    (if (r_code pipeline_results =? 0)%Z then
       line <- lift (concat_str
                       (py "Got value of " ++ key ++ py " programmatically: ")
                       (r_stdout pipeline_results)) ;;
       print line ;;
       match r_stdout pipeline_results with
       | VStr value => ret value
       | _ => raise TypeError
       end
     else
       value <- conf_get (py "main") key ;;
       match value with
       | Some value' =>
           if nonempty value && DEBUG then
             print (py "Got value of " ++ key ++ py " from " ++ CONF_FILENAME
                    ++ py ": " ++ value') ;;
             ret value'
           else
             (if DEBUG
              then print (py "Using default value for " ++ key ++ py ": "
                          ++ default)
              else ret tt) ;;
             ret default
       | None =>
           (if DEBUG
            then print (py "Using default value for " ++ key ++ py ": "
                        ++ default)
            else ret tt) ;;
           ret default
       end) ;;
  conf_set (py "main") key value ;;
  ret value.

(** A call of [__find_conf_value] with positional and keyword arguments:
    the arguments are bound to
    the parameters, then the body runs.  In the script every actual has
    the type its parameter is documented with; a call with another shape
    fails with [TypeError]. *)
Definition call_find_conf_value (pos : list PyArg)
    (kwargs : list (string * PyArg)) : M pystr :=
  match bind_arguments find_conf_value_params pos kwargs with
  | inl e => raise e
  | inr [AConf; AStr key; APipeline pipeline_args; AStr default] =>
      find_conf_value key pipeline_args default
  | inr _ => raise TypeError
  end.

(** [conf.read(CONF_FILENAME)]: the list of the files that could be
    opened; a file that cannot be opened is skipped silently. *)
Definition conf_read : M (list pystr) :=
  fun w =>
    match w_file w with
    | None => (Return [], w)
    | Some text =>
        let (error, c) := ini_read text in
        let w' := {| w_conf := c; w_file := w_file w; w_procs := w_procs w;
                     w_printed := w_printed w |} in
        match error with
        | Some e => (Raise e, w')
        | None => (Return [CONF_FILENAME], w')
        end
    end.

Definition conf_getitem (section : pystr) : M unit :=
  c <- get_conf ;; lift (getitem c section).

Definition QUOTE : pystr := [34%N].

Definition comment_header : pystr :=
  py "# This is a configuration file used by post_ood_logs_to_access_mms.py."
  ++ [LF]
  ++ py "# The values will be written/overwritten in-place in this file when the script"
  ++ [LF]
  ++ py "# runs and then used in future runs of the script if the script is otherwise"
  ++ [LF]
  ++ py "# unable to determine the log metadata values by parsing the Apache"
  ++ [LF]
  ++ py "# configuration."
  ++ [LF].

(** The three pipelines of the driver. *)
Definition apache_pipeline : list (list pystr) :=
  [ [py "httpd"; py "-t"; py "-D"; py "DUMP_INCLUDES"];
    [py "grep"; py "^\s*(\*)"];
    [py "awk"; py "{print $2}"] ].

Definition ood_portal_pipeline : list (list pystr) :=
  [ [py "httpd"; py "-t"; py "-D"; py "DUMP_INCLUDES"];
    [py "grep"; py "ood-portal.conf"];
    [py "awk"; py "{print $2}"] ].

Definition access_log_pipeline (ood_portal_conf_path : pystr)
  : list (list pystr) :=
  [ [py "grep"; py "^\s*[^#]\s*\<CustomLog\>"; ood_portal_conf_path];
    [py "grep"; py "_access_"];
    [py "awk"; py "{print $2}"];
    [py "cut"; py "-d"; QUOTE; py "-f"; py "2"] ].

(** The module body, from [conf = configparser.ConfigParser(...)] to the
    last line. *)
Definition driver : M unit :=
  put_conf empty_parser ;;
  parsed_filenames <- conf_read ;;
  match parsed_filenames with
  | [] => raise FileNotFoundError
  | _ =>
      try_except
        (conf_getitem (py "logs") ;; conf_getitem (py "runs"))
        KeyError
        (raise KeyError) ;;
      apache_conf_path <-
        call_find_conf_value [AConf]
          [("key", AStr (py "apache_conf_path"));
           ("command_args", APipeline apache_pipeline);
           ("default", AStr (py "/etc/httpd/conf/httpd.conf"))]%string ;;
      ood_portal_conf_path <-
        call_find_conf_value [AConf]
          [("key", AStr (py "ood_portal_conf_path"));
           ("command_args", APipeline ood_portal_pipeline);
           ("default", AStr (py "/etc/httpd/conf.d/ood-portal.conf"))]%string ;;
      access_log_filename <-
        call_find_conf_value [AConf]
          [("key", AStr (py "access_log_filename"));
           ("command_args",
            APipeline (access_log_pipeline ood_portal_conf_path));
           ("default", AStr (py "/etc/httpd/conf.d/ood-portal.conf"))]%string ;;
      file_write comment_header ;;
      c <- get_conf ;;
      file_append (write c)
  end.

End WithEnvironment.

End Script.

(* ===================================================================== *)
(** ** Notions used to state the properties *)
(* ===================================================================== *)

Module Props.

Import Configparser Subprocess Script.

(** The raw entry of the [main] section under the normalised [key], as
    [conf.write] would serialise it. *)
Definition cached (lower : pystr -> pystr) (c : ConfigParser) (key : pystr)
  : option (option pystr) :=
  match lookup (py "main") (sections c) with
  | Some sectdict => lookup (lower key) sectdict
  | None => None
  end.

(** The chain of a pipeline: each process created with [stdout=PIPE],
    the first with the standard input [input], every other one with the
    pipe of the process before it. *)
Inductive piped : option bytes -> list Popen -> Prop :=
| piped_nil : forall input, piped input []
| piped_cons : forall input p ps,
    stdin p = input ->
    stdout_arg p = PIPE ->
    piped (stdout p) ps ->
    piped input (p :: ps).

(** A process object that [os_exec] accounts for: the command started,
    and the readable standard output and the exit status are what the
    command produces on the standard input it was given. *)
Definition started (os_exec : list pystr -> Exc (option bytes -> Completed))
    (p : Popen) : Prop :=
  exists behaviour,
    os_exec (args p) = inr behaviour
    /\ stdout p = Some (out (behaviour (stdin p)))
    /\ returncode p = status (behaviour (stdin p)).

(** The state [w] after [line] was printed and the processes [ps] were
    started. *)
Definition after (w : World) (lines : list pystr) (ps : list Popen) : World :=
  {| w_conf := w_conf w; w_file := w_file w;
     w_procs := w_procs w ++ ps; w_printed := w_printed w ++ lines |}.

(** The standard input the next process of the loop is given, and the
    value of [old_process] after the processes [ps] were started. *)
Definition input_of (old_process : option Popen) : option bytes :=
  match old_process with
  | None => None
  | Some old => stdout old
  end.

Definition last_started (old_process : option Popen) (ps : list Popen)
  : option Popen :=
  fold_left (fun _ p => Some p) ps old_process.

(** A statement leaves a component of the state as it found it,
    whether it returns or raises. *)
Definition preserves {A T : Type} (component : World -> T) (m : M A) : Prop :=
  forall w, component (snd (m w)) = component w.

(** The command can be started and runs to its end: [os_exec] has the
    record of its terminated process. *)
Definition completes
    (os_exec : list pystr -> Exc (option bytes -> Completed))
    (a : list pystr) : Prop :=
  exists behaviour, os_exec a = inr behaviour.

(** The value each branch of [__find_conf_value] chooses, from the
    record of the pipeline and the parser object: the standard output of
    a pipeline that returned the code 0, else the non-empty text
    [conf.get] reads under the key, else the default. *)
Inductive supplies (lower : pystr -> pystr) (c : ConfigParser)
    (key default : pystr) (r : Results) : pystr -> Prop :=
| from_pipeline : forall value,
    r_code r = 0%Z ->
    r_stdout r = VStr value ->
    supplies lower c key default r value
| from_cache : forall x value,
    r_code r <> 0%Z ->
    get lower c (py "main") key = inr (Some (x :: value)) ->
    supplies lower c key default r (x :: value)
| from_default : forall cached_value,
    r_code r <> 0%Z ->
    get lower c (py "main") key = inr cached_value ->
    nonempty cached_value = false ->
    supplies lower c key default r default.

(** From the spec's words: "the standard output of command i becomes the
    standard input of command i+1": the bytes that leave the last command
    of a chain fed with [input], when every command starts. *)
Fixpoint chain_output
    (os_exec : list pystr -> Exc (option bytes -> Completed))
    (input : option bytes) (args_ : list (list pystr)) : option bytes :=
  match args_ with
  | [] => input
  | a :: rest =>
      match os_exec a with
      | inr behaviour =>
          chain_output os_exec (Some (out (behaviour input))) rest
      | inl _ => None
      end
  end.

(** From the spec's words: "running that single command directly and
    capturing its own stdout/stderr/exit code", with the same conversion
    of the two captured streams. *)
Definition run_directly
    (os_exec : list pystr -> Exc (option bytes -> Completed))
    (command : list pystr) : M Results :=
  (p <- Popen_ os_exec command None PIPE PIPE ;;
   let (so, se) := communicate p in
   so' <- lift (convert (of_stream so)) ;;
   se' <- lift (convert (of_stream se)) ;;
   ret {| r_stdout := so'; r_stderr := se'; r_code := returncode p |})%py.

(** From the spec's words: a returned stream is "decoded as text,
    trailing newline stripped; set to an explicit empty marker if the
    output was empty". *)
Definition stream_per_spec (raw : bytes) : Exc PyVal :=
  match raw with
  | [] => inr VNone
  | _ =>
      match decode_utf8 raw with
      | Some text => inr (VStr (strip_one_newline text))
      | None => inl UnicodeDecodeError
      end
  end.

End Props.

(* ===================================================================== *)
(** ** A concrete environment *)
(* ===================================================================== *)

Module Scenario.

Import Configparser Subprocess Script.

Local Open Scope N_scope.

(** [str.lower] on ASCII text. *)
Definition lower_ascii (s : pystr) : pystr :=
  map (fun c => if (65 <=? c) && (c <=? 90) then c + 32 else c) s.

Definition argv_eqb (x y : list pystr) : bool :=
  (List.length x =? List.length y)%nat
  && forallb (fun xy => str_eqb (fst xy) (snd xy)) (combine x y).

Definition LFb : byte := Byte.x0a.

(** A host with a shell, [echo], [cat], [true], [false] and [printf],
    and nothing else on its path. *)
Definition sh_oops : list pystr :=
  [py "sh"; py "-c"; py "echo oops >&2; exit 3"].
Definition echo_hello : list pystr := [py "echo"; py "hello"].
Definition printf_spaces : list pystr := [py "printf"; py "a \n\n"].
Definition printf_ff : list pystr := [py "printf"; py "\xff"].
Definition cat : list pystr := [py "cat"].
Definition true_ : list pystr := [py "true"].
Definition false_ : list pystr := [py "false"].

Definition commands : list (list pystr * (option bytes -> Completed)) :=
  [ (sh_oops,
     fun _ => {| out := []; err := b "oops" ++ [LFb]; status := 3 |});
    (echo_hello,
     fun _ => {| out := b "hello" ++ [LFb]; err := []; status := 0 |});
    (printf_spaces,
     fun _ => {| out := b "a " ++ [LFb; LFb]; err := []; status := 0 |});
    (printf_ff,
     fun _ => {| out := [Byte.xff]; err := []; status := 0 |});
    (cat,
     fun input => {| out := match input with
                            | Some data => data
                            | None => []
                            end;
                     err := []; status := 0 |});
    (true_, fun _ => {| out := []; err := []; status := 0 |});
    (false_, fun _ => {| out := []; err := []; status := 1 |}) ].

Definition host (argv : list pystr) : Exc (option bytes -> Completed) :=
  match find (fun entry => argv_eqb argv (fst entry)) commands with
  | Some entry => inr (snd entry)
  | None =>
      match argv with
      | [] => inl IndexError
      | _ => inl FileNotFoundError
      end
  end.

(** A host on which every command starts, writes nothing and exits with
    status 1. *)
Definition failing_host (argv : list pystr)
  : Exc (option bytes -> Completed) :=
  inr (fun _ => {| out := []; err := []; status := 1 |}).

(** A host whose only command is [cat], started by a script whose own
    standard input carries [parent_stdin]: a [cat] whose standard input
    is not redirected copies that. *)
Definition inheriting_host (parent_stdin : bytes) (argv : list pystr)
  : Exc (option bytes -> Completed) :=
  if argv_eqb argv cat
  then inr (fun input =>
              {| out := match input with
                        | Some data => data
                        | None => parent_stdin
                        end;
                 err := []; status := 0 |})
  else inl FileNotFoundError.

(** A host on which every command writes [100%] and a line feed and
    exits with status 0. *)
Definition percent_host (argv : list pystr)
  : Exc (option bytes -> Completed) :=
  inr (fun _ => {| out := b "100%" ++ [LFb]; err := []; status := 0 |}).

(** Parser states: a file with the three sections and a cached value,
    an empty value and a valueless option in [main]; and a file that has
    only [main]. *)
Definition conf_full : ConfigParser :=
  {| defaults := [];
     sections :=
       [ (py "main",
          [ (py "apache_conf_path", Some (py "/cached/httpd.conf"));
            (py "ood_portal_conf_path", Some (py "/cached/ood-portal.conf"));
            (py "access_log_filename", Some (py "cached_access.log"));
            (py "empty_value", Some []);
            (py "no_value", None) ]);
         (py "logs", []);
         (py "runs", []) ] |}.

Definition conf_main_only : ConfigParser :=
  {| defaults := []; sections := [ (py "main", []) ] |}.

Definition world (c : ConfigParser) (file : option pystr) : World :=
  {| w_conf := c; w_file := file; w_procs := []; w_printed := [] |}.

(** The text [conf.write] produces for [conf_full], and a reader that
    parses it back (and finds only [main] in any other text). *)
Definition full_text : pystr := write conf_full.

Definition reader (text : pystr) : option PyExc * ConfigParser :=
  if str_eqb text full_text then (None, conf_full)
  else (None, conf_main_only).

End Scenario.

(* ===================================================================== *)
(** ** Properties *)
(* ===================================================================== *)

Module Facts.

Import Configparser Subprocess Script Props.

Local Open Scope py_scope.

(** *** Dictionaries *)

Lemma str_eqb_refl : forall s, str_eqb s s = true.
Proof.
  induction s as [|c s IH]; simpl; [reflexivity|].
  now rewrite N.eqb_refl, IH.
Qed.

Lemma str_eqb_eq : forall x y, str_eqb x y = true -> x = y.
Proof.
  induction x as [|c x IH]; destruct y as [|d y]; simpl; intros H;
    try discriminate; [reflexivity|].
  apply andb_true_iff in H as [Hc Hx].
  apply N.eqb_eq in Hc. apply IH in Hx. congruence.
Qed.

Lemma lookup_assign_same :
  forall (V : Type) (k : pystr) (v : V) d, lookup k (assign k v d) = Some v.
Proof.
  induction d as [|[k' v'] d IH]; simpl.
  - now rewrite str_eqb_refl.
  - destruct (str_eqb k k') eqn:E; simpl; rewrite ?str_eqb_refl, ?E; auto.
Qed.

(** *** The monad *)

Lemma bind_Return :
  forall (A B : Type) (m : M A) (f : A -> M B) w b w',
    bind m f w = (Return b, w') ->
    exists a w1, m w = (Return a, w1) /\ f a w1 = (Return b, w').
Proof.
  unfold bind; intros A B m f w b0 w' H.
  destruct (m w) as [[a|e] w1]; [eauto | discriminate].
Qed.

Lemma bind_run :
  forall (A B : Type) (m : M A) (f : A -> M B) w a w1,
    m w = (Return a, w1) -> bind m f w = f a w1.
Proof. unfold bind; intros * H; now rewrite H. Qed.

Lemma bind_raise :
  forall (A B : Type) (m : M A) (f : A -> M B) w e w1,
    m w = (Raise e, w1) -> bind m f w = (Raise e, w1).
Proof. unfold bind; intros * H; now rewrite H. Qed.

Lemma after_nothing : forall w, after w [] [] = w.
Proof. destruct w; unfold after; simpl; now rewrite !app_nil_r. Qed.

Lemma after_after :
  forall w l1 p1 l2 p2,
    after (after w l1 p1) l2 p2 = after w (l1 ++ l2) (p1 ++ p2).
Proof. intros; unfold after; simpl; now rewrite !app_assoc. Qed.

Lemma print_run :
  forall line w, print line w = (Return tt, after w [line] []).
Proof. intros; unfold print, after; now rewrite app_nil_r. Qed.

Section Pipeline.

Variable os_exec : list pystr -> Exc (option bytes -> Completed).

(** *** Starting processes *)

Lemma Popen_fails :
  forall a i so se e w,
    os_exec a = inl e -> Popen_ os_exec a i so se w = (Raise e, w).
Proof. intros * H; unfold Popen_, bind, lift; now rewrite H. Qed.

Lemma Popen_starts :
  forall a i so se behaviour w,
    os_exec a = inr behaviour ->
    Popen_ os_exec a i so se w =
      (let p := {| args := a; stdin := i; stdout_arg := so; stderr_arg := se;
                   stdout := attach so (out (behaviour i));
                   stderr := attach se (err (behaviour i));
                   returncode := status (behaviour i) |} in
       (Return p, after w [] [p])).
Proof.
  intros * H; unfold Popen_, bind, lift, ret, record_process, after.
  rewrite H; simpl. now rewrite app_nil_r.
Qed.

(** The loop of [__run_pipeline] starts a chain: whatever its outcome,
    the processes it started are connected by pipes, none of them has a
    readable standard error, and it stops at the first command that
    cannot be started. *)
Lemma start_all_spec :
  forall args_ old w,
    exists ps,
      snd (start_all os_exec old args_ w) = after w [] ps
      /\ piped (input_of old) ps
      /\ Forall (started os_exec) ps
      /\ Forall (fun p => stderr_arg p = DEVNULL /\ stderr p = None) ps
      /\ match fst (start_all os_exec old args_ w) with
         | Return last =>
             map args ps = args_ /\ last = last_started old ps
             /\ input_of last = chain_output os_exec (input_of old) args_
         | Raise e =>
             exists a, nth_error args_ (List.length ps) = Some a
                       /\ map args ps = firstn (List.length ps) args_
                       /\ os_exec a = inl e
         end.
Proof.
  induction args_ as [|a rest IH]; intros old w.
  - exists []. simpl. rewrite after_nothing.
    repeat split; constructor.
  - simpl. destruct (os_exec a) as [e|behaviour] eqn:E.
    + exists []. unfold bind. rewrite (Popen_fails _ _ _ _ E). simpl.
      rewrite after_nothing. repeat split; try constructor.
      exists a; auto.
    + unfold bind. rewrite (Popen_starts _ _ _ _ E). cbv zeta.
      set (p := Build_Popen _ _ _ _ _ _ _).
      destruct (IH (Some p) (after w [] [p])) as (ps & Hw & Hp & Hs & He & Hr).
      exists (p :: ps). rewrite Hw, after_after. simpl.
      repeat split; auto.
      * constructor; auto.
      * constructor; auto. exists behaviour; auto.
      * destruct (fst (start_all os_exec (Some p) rest (after w [] [p]))).
        -- destruct Hr as (Hm & Hl & Hc).
           split; [now rewrite Hm | split; [exact Hl | exact Hc]].
        -- destruct Hr as (a' & Hn & Hm & Ha). exists a'.
           repeat split; auto. now rewrite Hm.
Qed.

Lemma last_started_In :
  forall ps old q,
    last_started old ps = Some q -> In q ps \/ (ps = [] /\ old = Some q).
Proof.
  induction ps as [|p ps IH]; intros old q H.
  - right; auto.
  - left. simpl in H. apply IH in H as [H | [Hnil H]].
    + now right.
    + left; congruence.
Qed.

Lemma last_started_cons :
  forall ps p old, exists q, last_started old (p :: ps) = Some q.
Proof.
  induction ps as [|p' ps IH]; intros p old; simpl.
  - eauto.
  - apply (IH p' (Some p)).
Qed.

(** *** The outcome of [__run_pipeline] *)

(** Every outcome of the function, with the processes it leaves behind:
    a returned record is read off the last process of the chain; an
    exception is the [AttributeError] of the empty pipeline, the error of
    the first command that cannot be started, or the error of converting
    the standard output of the last process. *)
Lemma run_pipeline_spec :
  forall args_ w,
    exists ps,
      snd (run_pipeline os_exec args_ w) = after w [running_line args_] ps
      /\ piped None ps
      /\ Forall (started os_exec) ps
      /\ Forall (fun p => stderr_arg p = DEVNULL /\ stderr p = None) ps
      /\ match fst (run_pipeline os_exec args_ w) with
         | Return r =>
             map args ps = args_
             /\ exists last,
                 last_started None ps = Some last
                 /\ r_code r = returncode last
                 /\ r_stderr r = VNone
                 /\ stdout last = chain_output os_exec None args_
                 /\ convert (of_stream (stdout last)) = inr (r_stdout r)
         | Raise e =>
             (args_ = [] /\ ps = [] /\ e = AttributeError)
             \/ (exists a, nth_error args_ (List.length ps) = Some a
                           /\ map args ps = firstn (List.length ps) args_
                           /\ os_exec a = inl e)
             \/ (map args ps = args_
                 /\ exists last,
                     last_started None ps = Some last
                     /\ stdout last = chain_output os_exec None args_
                     /\ convert (of_stream (stdout last)) = inl e)
         end.
Proof.
  intros args_ w.
  destruct (start_all_spec args_ None (after w [running_line args_] []))
    as (ps & Hw & Hp & Hs & He & Hr).
  exists ps. rewrite after_after in Hw. simpl in Hw.
  unfold run_pipeline. cbv beta iota delta [DEBUG].
  erewrite bind_run by apply print_run.
  destruct (start_all os_exec None args_ (after w [running_line args_] []))
    as [[old|e] w1] eqn:E; simpl in Hw, Hr; subst w1.
  - erewrite bind_run by exact E.
    destruct Hr as (Hm & Hl & Hch). symmetry in Hl.
    destruct old as [last|].
    + assert (Herr : stderr last = None).
      { apply last_started_In in Hl as [Hin | [_ Habs]]; [|discriminate].
        rewrite Forall_forall in He. now apply He. }
      unfold communicate. rewrite Herr. simpl (of_stream None).
      unfold bind, lift.
      destruct (convert (of_stream (stdout last))) as [e|so'] eqn:Ec; simpl.
      * split; [reflexivity|]. do 3 (split; [assumption|]).
        right; right. split; [assumption|]. exists last; auto.
      * split; [reflexivity|]. do 4 (split; [assumption|]).
        exists last; auto.
    + simpl. split; [reflexivity|]. do 3 (split; [assumption|]). left.
      destruct ps as [|p ps]; [simpl in Hm; auto|].
      exfalso. destruct (last_started_cons ps p None) as [q Hq]. congruence.
  - erewrite bind_raise by exact E. simpl.
    split; [reflexivity|]. do 3 (split; [assumption|]).
    right; left. exact Hr.
Qed.

(** The outcome of a pipeline does not depend on the state it is run
    in: the state only records what happened. *)
Lemma start_all_outcome :
  forall args_ old w w',
    fst (start_all os_exec old args_ w) = fst (start_all os_exec old args_ w').
Proof.
  induction args_ as [|a rest IH]; intros old w w'; [reflexivity|].
  simpl. unfold bind.
  destruct (os_exec a) as [e|behaviour] eqn:E.
  - now rewrite !(Popen_fails _ _ _ _ E).
  - rewrite !(Popen_starts _ _ _ _ E). cbv zeta. apply IH.
Qed.

Lemma run_pipeline_outcome :
  forall args_ w w',
    fst (run_pipeline os_exec args_ w) = fst (run_pipeline os_exec args_ w').
Proof.
  intros args_ w w'. unfold run_pipeline. cbv beta iota delta [DEBUG].
  rewrite (@bind_run _ _ _ _ w _ _ (print_run _ w)).
  rewrite (@bind_run _ _ _ _ w' _ _ (print_run _ w')).
  pose proof (start_all_outcome args_ None
                (after w [running_line args_] [])
                (after w' [running_line args_] [])) as H.
  destruct (start_all os_exec None args_ (after w [running_line args_] []))
    as [[old|e] w1] eqn:E1;
    destruct (start_all os_exec None args_ (after w' [running_line args_] []))
      as [[old'|e'] w1'] eqn:E2; simpl in H; try discriminate.
  - injection H as ->.
    rewrite (@bind_run _ _ _ _ _ _ _ E1), (@bind_run _ _ _ _ _ _ _ E2).
    destruct old' as [last|]; [|reflexivity].
    unfold communicate, bind, lift.
    destruct (convert (of_stream (stdout last))); [reflexivity|].
    simpl. destruct (convert (of_stream (stderr last))); reflexivity.
  - injection H as ->.
    now rewrite (@bind_raise _ _ _ _ _ _ _ E1), (@bind_raise _ _ _ _ _ _ _ E2).
Qed.

End Pipeline.

(** *** The parser *)

Section Parser.

Variable lower : pystr -> pystr.

Lemma main_is_a_section :
  py "main" <> [] /\ str_eqb (py "main") default_section = false.
Proof. split; [discriminate | reflexivity]. Qed.

Lemma get_absent :
  forall c key sectdict,
    lookup (py "main") (sections c) = Some sectdict ->
    lookup (lower key) sectdict = None ->
    lookup (lower key) (defaults c) = None ->
    get lower c (py "main") key = inl NoOptionError.
Proof.
  intros c key sd Hm Hk Hd. unfold get, unify_values, optionxform.
  rewrite Hm. simpl. now rewrite Hk, Hd.
Qed.

Lemma get_no_section :
  forall c key,
    lookup (py "main") (sections c) = None ->
    get lower c (py "main") key = inl NoSectionError.
Proof.
  intros c key Hm. unfold get, unify_values. rewrite Hm.
  now rewrite (proj2 main_is_a_section).
Qed.

Lemma get_cached_empty :
  forall c key,
    cached lower c key = Some (Some []) ->
    get lower c (py "main") key = inr (Some []).
Proof.
  intros c key H. unfold cached in H. unfold get, unify_values, optionxform.
  destruct (lookup (py "main") (sections c)) as [sd|]; [|discriminate].
  simpl. now rewrite H.
Qed.

Lemma get_cached_no_value :
  forall c key,
    cached lower c key = Some None ->
    get lower c (py "main") key = inr None.
Proof.
  intros c key H. unfold cached in H. unfold get, unify_values, optionxform.
  destruct (lookup (py "main") (sections c)) as [sd|]; [|discriminate].
  simpl. now rewrite H.
Qed.

(** A successful [conf.set('main', key, value)] leaves [value] under the
    normalised key of [main], and touches nothing but that section. *)
Lemma set_main_cached :
  forall c key value c',
    set lower c (py "main") key (Some value) = inr c' ->
    cached lower c' key = Some (Some value)
    /\ defaults c' = defaults c
    /\ exists sectdict,
         lookup (py "main") (sections c) = Some sectdict
         /\ sections c' =
              assign (py "main")
                (assign (lower key) (Some value) sectdict) (sections c).
Proof.
  intros c key value c' H. unfold set, optionxform in H.
  destruct value as [|ch value].
  - simpl in H. destruct (lookup (py "main") (sections c)) as [sd|] eqn:Hm;
      [|discriminate].
    injection H as <-. unfold cached; simpl.
    rewrite lookup_assign_same, lookup_assign_same. eauto.
  - unfold exc_map, before_set in H.
    destruct (contains PERCENT _); [discriminate|].
    simpl in H. destruct (lookup (py "main") (sections c)) as [sd|] eqn:Hm;
      [|discriminate].
    injection H as <-. unfold cached; simpl.
    rewrite lookup_assign_same, lookup_assign_same. eauto.
Qed.

Lemma set_main_succeeds :
  forall c key value sectdict,
    lookup (py "main") (sections c) = Some sectdict ->
    before_set value = inr value ->
    exists c', set lower c (py "main") key (Some value) = inr c'.
Proof.
  intros c key value sd Hm Hv. unfold set.
  destruct value as [|ch value].
  - simpl. rewrite Hm. eauto.
  - rewrite Hv. simpl. rewrite Hm. eauto.
Qed.

Lemma conf_get_run :
  forall section key w,
    conf_get lower section key w =
      (match get lower (w_conf w) section key with
       | inl e => Raise e
       | inr v => Return v
       end, w).
Proof.
  intros. unfold conf_get, get_conf, bind, lift.
  destruct (get lower (w_conf w) section key); reflexivity.
Qed.

Lemma conf_set_run :
  forall section key value w,
    conf_set lower section key value w =
      match set lower (w_conf w) section key (Some value) with
      | inl e => (Raise e, w)
      | inr c => (Return tt,
                  {| w_conf := c; w_file := w_file w; w_procs := w_procs w;
                     w_printed := w_printed w |})
      end.
Proof.
  intros. unfold conf_set, get_conf, put_conf, bind, lift.
  destruct (set lower (w_conf w) section key (Some value)); reflexivity.
Qed.

End Parser.

(** *** The resolver *)

Section Resolver.

Variable lower : pystr -> pystr.
Variable os_exec : list pystr -> Exc (option bytes -> Completed).

(** When the pipeline returns a record, the call goes on with that
    record in a state with the same parser object and the same file. *)
Lemma resolver_runs_pipeline :
  forall key pipeline_args w r,
    fst (run_pipeline os_exec pipeline_args w) = Return r ->
    exists w1,
      w_conf w1 = w_conf w
      /\ w_file w1 = w_file w
      /\ run_pipeline os_exec pipeline_args
           (after w [py "Finding conf value of " ++ key] [])
         = (Return r, w1).
Proof.
  intros key pipeline_args w r Hr.
  set (w0 := after w [py "Finding conf value of " ++ key] []).
  destruct (run_pipeline_spec os_exec pipeline_args w0) as (ps & Hw & _).
  pose proof (run_pipeline_outcome os_exec pipeline_args w w0) as Ho.
  rewrite Hr in Ho.
  destruct (run_pipeline os_exec pipeline_args w0) as [o w1].
  cbn [fst snd] in Hw, Ho. subst o w1.
  exists (after w0 [running_line pipeline_args] ps).
  repeat split; reflexivity.
Qed.

End Resolver.

End Facts.

(* ===================================================================== *)
(** ** The value resolver *)
(* ===================================================================== *)

Import Configparser Subprocess Script Props Facts.

Local Open Scope py_scope.

(** Whenever a call of [__find_conf_value] returns, whichever branch
    chose the value (the pipeline, the cached entry or the default), the
    returned value is the entry of the [main] section of the parser object
    under the given key when the call returns, whatever was cached there
    before. *)
Theorem resolved_value_is_recorded :
  forall lower os_exec key pipeline_args default w value w',
    find_conf_value lower os_exec key pipeline_args default w
      = (Return value, w') ->
    cached lower (w_conf w') key = Some (Some value).
Proof.
  intros * H. unfold find_conf_value in H.
  apply bind_Return in H as (u & w0 & _ & H).
  apply bind_Return in H as (r & w1 & _ & H).
  apply bind_Return in H as (v & w2 & _ & H).
  apply bind_Return in H as ([] & w3 & Hset & H).
  unfold ret in H. injection H as <- <-.
  rewrite conf_set_run in Hset.
  destruct (set lower (w_conf w2) (py "main") key (Some v)) as [e|c] eqn:E;
    [discriminate|].
  injection Hset as <-. cbn [w_conf].
  apply set_main_cached in E as [E _]. exact E.
Qed.

(** The three branches of the resolver all return on the example host:
    a pipeline that succeeds, a cached entry, and the default. *)
Lemma resolved_value_is_recorded_witness :
  cached Scenario.lower_ascii
    (w_conf (snd (find_conf_value Scenario.lower_ascii Scenario.host
                    (py "apache_conf_path") [Scenario.echo_hello]
                    (py "/default/path")
                    (Scenario.world Scenario.conf_full None))))
    (py "apache_conf_path")
  = Some (Some (py "hello")).
Proof.
  apply (@resolved_value_is_recorded Scenario.lower_ascii Scenario.host
           (py "apache_conf_path") [Scenario.echo_hello] (py "/default/path")
           (Scenario.world Scenario.conf_full None)).
  vm_compute. reflexivity.
Defined.

Example resolver_uses_cached_entry :
  fst (find_conf_value Scenario.lower_ascii Scenario.host
         (py "apache_conf_path") [Scenario.false_] (py "/default/path")
         (Scenario.world Scenario.conf_full None))
  = Return (py "/cached/httpd.conf").
Proof. vm_compute. reflexivity. Qed.

Example resolver_uses_default :
  fst (find_conf_value Scenario.lower_ascii Scenario.host
         (py "no_value") [Scenario.false_] (py "/default/path")
         (Scenario.world Scenario.conf_full None))
  = Return (py "/default/path").
Proof. vm_compute. reflexivity. Qed.

(** After a pipeline that returned a non-zero code, an entry of [main]
    that is absent raises from the lookup, and one that is empty or has
    no value makes the call take the default. *)
Lemma resolver_lookup_raises :
  forall lower os_exec key pipeline_args default w r e,
    fst (run_pipeline os_exec pipeline_args w) = Return r ->
    r_code r <> 0%Z ->
    get lower (w_conf w) (py "main") key = inl e ->
    fst (find_conf_value lower os_exec key pipeline_args default w) = Raise e
    /\ w_conf (snd (find_conf_value lower os_exec key pipeline_args default w))
       = w_conf w
    /\ w_file (snd (find_conf_value lower os_exec key pipeline_args default w))
       = w_file w.
Proof.
  intros * Hr Hc Hg.
  destruct (resolver_runs_pipeline os_exec key pipeline_args w Hr)
    as (w1 & Hconf & Hfile & Hrun).
  unfold find_conf_value. cbv beta iota delta [DEBUG].
  rewrite (@bind_run _ _ _ _ _ _ _ (print_run _ w)).
  rewrite (@bind_run _ _ _ _ _ _ _ Hrun).
  destruct (Z.eqb_spec (r_code r) 0) as [|_]; [contradiction|].
  assert (Hget : conf_get lower (py "main") key w1 = (Raise e, w1)).
  { rewrite conf_get_run, Hconf, Hg. reflexivity. }
  rewrite (@bind_raise _ _ _ _ _ _ _
             (@bind_raise _ _ _ _ _ _ _ Hget)).
  auto.
Qed.

Lemma resolver_takes_default :
  forall lower os_exec key pipeline_args default w r v,
    fst (run_pipeline os_exec pipeline_args w) = Return r ->
    r_code r <> 0%Z ->
    get lower (w_conf w) (py "main") key = inr v ->
    nonempty v = false ->
    exists w2,
      w_conf w2 = w_conf w
      /\ find_conf_value lower os_exec key pipeline_args default w
         = (conf_set lower (py "main") key default ;; ret default) w2.
Proof.
  intros * Hr Hc Hg Hv.
  destruct (resolver_runs_pipeline os_exec key pipeline_args w Hr)
    as (w1 & Hconf & Hfile & Hrun).
  unfold find_conf_value. cbv beta iota delta [DEBUG].
  rewrite (@bind_run _ _ _ _ _ _ _ (print_run _ w)).
  rewrite (@bind_run _ _ _ _ _ _ _ Hrun).
  destruct (Z.eqb_spec (r_code r) 0) as [|_]; [contradiction|].
  assert (Hget : conf_get lower (py "main") key w1 = (Return v, w1)).
  { rewrite conf_get_run, Hconf, Hg. reflexivity. }
  set (line := py "Using default value for " ++ key ++ py ": " ++ default).
  exists (after w1 [line] []). split; [exact Hconf|].
  match goal with
  | |- bind (bind _ ?f) _ _ = _ =>
      assert (Hin : bind (conf_get lower (py "main") key) f w1
                    = (Return default, after w1 [line] []))
  end.
  { rewrite (@bind_run _ _ _ _ _ _ _ Hget).
    destruct v as [[|c v]|]; try discriminate;
      cbn [nonempty andb];
      now rewrite (@bind_run _ _ _ _ _ _ _ (print_run _ w1)). }
  now rewrite (@bind_run _ _ _ _ _ _ _ Hin).
Qed.

(** C9 (amended).  After a pipeline that returned a non-zero code, an
    entry of [main] under the key that is the empty string, or that has
    no value, is treated as no cached value: provided the default passes
    the interpolation-syntax check that [conf.set] makes (every percent
    sign in it belongs to a doubled percent sign or to a percent sign
    followed by a parenthesised name and an s), the call returns the
    default and leaves it as the entry of [main] under the key. *)
Theorem empty_entry_gives_default :
  forall lower os_exec key pipeline_args default w r,
    fst (run_pipeline os_exec pipeline_args w) = Return r ->
    r_code r <> 0%Z ->
    cached lower (w_conf w) key = Some (Some [])
    \/ cached lower (w_conf w) key = Some None ->
    before_set default = inr default ->
    fst (find_conf_value lower os_exec key pipeline_args default w)
      = Return default
    /\ cached lower
         (w_conf (snd (find_conf_value lower os_exec key pipeline_args
                         default w))) key
       = Some (Some default).
Proof.
  intros * Hr Hc Hk Hd.
  assert (Hg : exists v, get lower (w_conf w) (py "main") key = inr v
                         /\ nonempty v = false).
  { destruct Hk as [Hk | Hk].
    - exists (Some []). split; [now apply get_cached_empty | reflexivity].
    - exists None. split; [now apply get_cached_no_value | reflexivity]. }
  destruct Hg as (v & Hg & Hv).
  destruct (resolver_takes_default lower os_exec key pipeline_args default
              w Hr Hc Hg Hv) as (w2 & Hconf & Heq).
  rewrite Heq.
  assert (Hm : exists sectdict,
             lookup (py "main") (sections (w_conf w2)) = Some sectdict).
  { rewrite Hconf. unfold cached in Hk.
    destruct (lookup (py "main") (sections (w_conf w))); [eauto|].
    destruct Hk; discriminate. }
  destruct Hm as [sectdict Hm].
  destruct (set_main_succeeds lower (w_conf w2) key Hm Hd) as [c' Hset].
  unfold bind. rewrite conf_set_run, Hset. cbn [fst snd ret w_conf].
  split; [reflexivity|].
  apply set_main_cached in Hset as [Hset _]. exact Hset.
Qed.

Lemma empty_entry_gives_default_witness :
  fst (find_conf_value Scenario.lower_ascii Scenario.host
         (py "empty_value") [Scenario.false_] (py "/default/path")
         (Scenario.world Scenario.conf_full None))
    = Return (py "/default/path")
  /\ cached Scenario.lower_ascii
       (w_conf (snd (find_conf_value Scenario.lower_ascii Scenario.host
                       (py "empty_value") [Scenario.false_]
                       (py "/default/path")
                       (Scenario.world Scenario.conf_full None))))
       (py "empty_value")
     = Some (Some (py "/default/path")).
Proof.
  apply (@empty_entry_gives_default Scenario.lower_ascii Scenario.host
           (py "empty_value") [Scenario.false_] (py "/default/path")
           (Scenario.world Scenario.conf_full None)
           {| r_stdout := VBytes []; r_stderr := VNone; r_code := 1 |}).
  - vm_compute. reflexivity.
  - discriminate.
  - left. vm_compute. reflexivity.
  - vm_compute. reflexivity.
Defined.

(** C9, as stated, fails: with the empty entry [empty_value] in [main],
    a pipeline that exits with status 1 and the default [100%], the call
    raises [ValueError] from [conf.set] instead of returning the
    default. *)
Lemma empty_entry_default_rejected :
  cached Scenario.lower_ascii Scenario.conf_full (py "empty_value")
    = Some (Some [])
  /\ fst (run_pipeline Scenario.host [Scenario.false_]
            (Scenario.world Scenario.conf_full None))
     = Return {| r_stdout := VBytes []; r_stderr := VNone; r_code := 1 |}
  /\ fst (find_conf_value Scenario.lower_ascii Scenario.host
            (py "empty_value") [Scenario.false_] (py "100%")
            (Scenario.world Scenario.conf_full None))
     = Raise ValueError
  /\ cached Scenario.lower_ascii
       (w_conf (snd (find_conf_value Scenario.lower_ascii Scenario.host
                       (py "empty_value") [Scenario.false_] (py "100%")
                       (Scenario.world Scenario.conf_full None))))
       (py "empty_value")
     = Some (Some []).
Proof. vm_compute. repeat split. Qed.

(** C2.  The code does the opposite of the claim: after a pipeline that
    returned a non-zero code, a key with no entry in [main] (and none in
    the defaults) makes [conf.get] raise [NoOptionError]; the call raises
    it, returns no default and writes nothing into the parser object. *)
Theorem absent_entry_raises :
  forall lower os_exec key pipeline_args default w r sectdict,
    fst (run_pipeline os_exec pipeline_args w) = Return r ->
    r_code r <> 0%Z ->
    lookup (py "main") (sections (w_conf w)) = Some sectdict ->
    lookup (lower key) sectdict = None ->
    lookup (lower key) (defaults (w_conf w)) = None ->
    fst (find_conf_value lower os_exec key pipeline_args default w)
      = Raise NoOptionError
    /\ w_conf (snd (find_conf_value lower os_exec key pipeline_args default w))
       = w_conf w.
Proof.
  intros * Hr Hc Hm Hk Hd.
  destruct (@resolver_lookup_raises lower os_exec key pipeline_args default
              w r NoOptionError Hr Hc) as (H1 & H2 & _); auto.
  now apply get_absent with (sectdict := sectdict).
Qed.

Lemma absent_entry_raises_witness :
  fst (find_conf_value Scenario.lower_ascii Scenario.host
         (py "apache_conf_path") [Scenario.false_] (py "/default/path")
         (Scenario.world Scenario.conf_main_only None))
    = Raise NoOptionError
  /\ w_conf (snd (find_conf_value Scenario.lower_ascii Scenario.host
                    (py "apache_conf_path") [Scenario.false_]
                    (py "/default/path")
                    (Scenario.world Scenario.conf_main_only None)))
     = Scenario.conf_main_only.
Proof.
  apply (@absent_entry_raises Scenario.lower_ascii Scenario.host
           (py "apache_conf_path") [Scenario.false_] (py "/default/path")
           (Scenario.world Scenario.conf_main_only None)
           {| r_stdout := VBytes []; r_stderr := VNone; r_code := 1 |} []).
  - vm_compute. reflexivity.
  - discriminate.
  - reflexivity.
  - reflexivity.
  - reflexivity.
Defined.

(* ===================================================================== *)
(** ** The pipeline runner *)
(* ===================================================================== *)

(** Whatever a returned record holds under [stderr] is [None], and every
    process of the pipeline, the last one included, was created with its
    standard error sent to the null device. *)
Lemma stderr_is_never_captured :
  forall os_exec args_ w r,
    fst (run_pipeline os_exec args_ w) = Return r ->
    r_stderr r = VNone
    /\ exists ps,
         w_procs (snd (run_pipeline os_exec args_ w)) = w_procs w ++ ps
         /\ Forall (fun p => stderr_arg p = DEVNULL /\ stderr p = None) ps.
Proof.
  intros os_exec args_ w r H.
  destruct (run_pipeline_spec os_exec args_ w) as (ps & Hw & _ & _ & He & Hr).
  rewrite H in Hr. destruct Hr as (_ & last & _ & _ & Hs & _).
  split; [exact Hs|]. exists ps. rewrite Hw. split; [reflexivity | exact He].
Qed.

(** C3.  On the example host, the one-command pipeline whose command
    writes [oops] to its standard error and exits with status 3 returns
    [None] under [stderr], although the command run directly, with its
    standard error captured, yields the text [oops]: the standard error
    of the last command is discarded like that of the others. *)
Theorem last_stderr_is_discarded :
  Scenario.host Scenario.sh_oops
    = inr (fun _ => {| out := []; err := b "oops" ++ [Scenario.LFb];
                       status := 3 |})
  /\ fst (run_pipeline Scenario.host [Scenario.sh_oops]
            (Scenario.world empty_parser None))
     = Return {| r_stdout := VBytes []; r_stderr := VNone; r_code := 3 |}
  /\ fst (run_directly Scenario.host Scenario.sh_oops
            (Scenario.world empty_parser None))
     = Return {| r_stdout := VBytes []; r_stderr := VStr (py "oops");
                 r_code := 3 |}
  /\ map stderr_arg
       (w_procs (snd (run_pipeline Scenario.host [Scenario.sh_oops]
                        (Scenario.world empty_parser None))))
     = [DEVNULL].
Proof. vm_compute. repeat split. Qed.

(** An empty stream is left as it is by the conversion loop: empty bytes
    for a pipe, not [None]. *)
Lemma convert_empty : convert (VBytes []) = inr (VBytes []).
Proof. reflexivity. Qed.

(** C4.  On the example host, a last command that writes nothing makes
    the runner return the empty bytes object under [stdout] where the
    claim (and the docstring) say [None]; and the output [a], a space and
    two line feeds comes back as [a], every trailing whitespace character
    stripped, where stripping exactly the trailing newline would leave
    [a], a space and a line feed. *)
Theorem empty_stdout_is_not_None :
  fst (run_pipeline Scenario.host [Scenario.true_]
         (Scenario.world empty_parser None))
    = Return {| r_stdout := VBytes []; r_stderr := VNone; r_code := 0 |}
  /\ stream_per_spec [] = inr VNone
  /\ fst (run_pipeline Scenario.host [Scenario.printf_spaces]
            (Scenario.world empty_parser None))
     = Return {| r_stdout := VStr (py "a"); r_stderr := VNone; r_code := 0 |}
  /\ stream_per_spec (b "a " ++ [Scenario.LFb; Scenario.LFb])
     = inr (VStr (py "a " ++ [LF])).
Proof. vm_compute. repeat split. Qed.

(** Whatever the pipeline, the processes the runner starts form a
    chain: the first is created with no standard input of its own
    ([stdin=None]), every other one with the pipe that carries the
    standard output of the process before it, and what each process
    writes there is what its command produces on that input.  When the
    runner returns, one process was started per command, in order, and
    the returned code and standard output are those of the last process
    alone. *)
Theorem pipeline_is_connected :
  forall os_exec args_ w,
    exists ps,
      w_procs (snd (run_pipeline os_exec args_ w)) = w_procs w ++ ps
      /\ piped None ps
      /\ Forall (started os_exec) ps
      /\ forall r,
           fst (run_pipeline os_exec args_ w) = Return r ->
           map args ps = args_
           /\ exists last,
                last_started None ps = Some last
                /\ r_code r = returncode last
                /\ convert (of_stream (stdout last)) = inr (r_stdout r).
Proof.
  intros os_exec args_ w.
  destruct (run_pipeline_spec os_exec args_ w) as (ps & Hw & Hp & Hs & _ & Hr).
  exists ps. rewrite Hw. repeat split; auto.
  - intros; rewrite H in Hr; tauto.
  - rewrite H in Hr. destruct Hr as (_ & last & Hl & Hc & _ & _ & Ho).
    exists last; auto.
Qed.

Lemma pipeline_is_connected_witness :
  exists ps,
    w_procs (snd (run_pipeline Scenario.host
                    [Scenario.echo_hello; Scenario.cat; Scenario.cat]
                    (Scenario.world empty_parser None)))
      = [] ++ ps
    /\ piped None ps
    /\ Forall (started Scenario.host) ps
    /\ forall r,
         fst (run_pipeline Scenario.host
                [Scenario.echo_hello; Scenario.cat; Scenario.cat]
                (Scenario.world empty_parser None)) = Return r ->
         map args ps = [Scenario.echo_hello; Scenario.cat; Scenario.cat]
         /\ exists last,
              last_started None ps = Some last
              /\ r_code r = returncode last
              /\ convert (of_stream (stdout last)) = inr (r_stdout r).
Proof.
  exact (pipeline_is_connected Scenario.host
           [Scenario.echo_hello; Scenario.cat; Scenario.cat]
           (Scenario.world empty_parser None)).
Defined.

(** The three-command pipeline of the witness passes the output of
    [echo] through both [cat]s. *)
Example echo_through_two_cats :
  fst (run_pipeline Scenario.host
         [Scenario.echo_hello; Scenario.cat; Scenario.cat]
         (Scenario.world empty_parser None))
    = Return {| r_stdout := VStr (py "hello"); r_stderr := VNone;
                r_code := 0 |}
  /\ map stdin
       (w_procs (snd (run_pipeline Scenario.host
                        [Scenario.echo_hello; Scenario.cat; Scenario.cat]
                        (Scenario.world empty_parser None))))
     = [None; Some (b "hello" ++ [Scenario.LFb]);
        Some (b "hello" ++ [Scenario.LFb])].
Proof. vm_compute. split; reflexivity. Qed.

(** C10 (amended).  The empty pipeline raises [AttributeError].  A
    pipeline of at least one command returns a record, provided every
    command of it can be started and terminates (the last one included,
    for [communicate] waits for its end) and the bytes that leave the
    last command are well-formed UTF-8. *)
Theorem run_pipeline_returns_record :
  forall os_exec args_ w,
    (args_ = [] ->
     fst (run_pipeline os_exec args_ w) = Raise AttributeError)
    /\ (args_ <> [] ->
        (forall a, In a args_ -> completes os_exec a) ->
        (forall data,
            chain_output os_exec None args_ = Some data ->
            decode_utf8 data <> None) ->
        exists r, fst (run_pipeline os_exec args_ w) = Return r).
Proof.
  intros os_exec args_ w.
  destruct (run_pipeline_spec os_exec args_ w) as (ps & _ & _ & _ & _ & Hr).
  split.
  - intros ->.
    destruct (fst (run_pipeline os_exec [] w)) as [r|e].
    + destruct Hr as (Hm & last & Hl & _).
      destruct ps; [discriminate | discriminate].
    + destruct Hr as [(_ & _ & ->) | [(a & Hn & _) | (Hm & last & Hl & _)]].
      * reflexivity.
      * destruct (List.length ps); discriminate.
      * destruct ps; discriminate.
  - intros Hne Hstart Hutf.
    destruct (fst (run_pipeline os_exec args_ w)) as [r|e]; [eauto|].
    exfalso.
    destruct Hr as [(Hnil & _) | [(a & Hn & _ & Ha) | (_ & last & _ & Hc & He)]].
    + contradiction.
    + apply nth_error_In in Hn. destruct (Hstart a Hn) as [bh Hb]. congruence.
    + symmetry in Hc. unfold convert in He.
      destruct (stdout last) as [data|]; [|discriminate].
      specialize (Hutf data Hc). simpl in He.
      destruct data as [|x data]; [discriminate|]. simpl in He.
      destruct (decode_utf8 (x :: data)); [discriminate | congruence].
Qed.

Lemma run_pipeline_returns_record_witness :
  exists r,
    fst (run_pipeline Scenario.host [Scenario.echo_hello; Scenario.cat]
           (Scenario.world empty_parser None)) = Return r.
Proof.
  apply (proj2 (run_pipeline_returns_record Scenario.host
                  [Scenario.echo_hello; Scenario.cat]
                  (Scenario.world empty_parser None))).
  - discriminate.
  - intros a [<- | [<- | []]]; unfold completes; eexists;
      vm_compute; reflexivity.
  - intros data H. vm_compute in H. injection H as <-.
    vm_compute. discriminate.
Defined.

(** C10, as stated, fails: on the example host the one-command pipeline
    whose command writes the single byte FF raises [UnicodeDecodeError]
    and returns no record. *)
Lemma invalid_utf8_raises :
  [Scenario.printf_ff] <> []
  /\ Scenario.host Scenario.printf_ff
     = inr (fun _ => {| out := [Byte.xff]; err := []; status := 0 |})
  /\ fst (run_pipeline Scenario.host [Scenario.printf_ff]
            (Scenario.world empty_parser None))
     = Raise UnicodeDecodeError.
Proof. split; [discriminate|]. vm_compute. split; reflexivity. Qed.

(* ===================================================================== *)
(** ** The driver *)
(* ===================================================================== *)

(** The two lookups of the required sections, and the handler that turns
    the [KeyError] of either into the [KeyError] of the script. *)
Lemma required_sections :
  forall w,
    try_except (conf_getitem (py "logs") ;; conf_getitem (py "runs"))
      KeyError (raise KeyError) w
    = (if has_section (w_conf w) (py "logs")
          && has_section (w_conf w) (py "runs")
       then Return tt else Raise KeyError, w).
Proof.
  intros w. unfold try_except, conf_getitem, get_conf, lift, getitem.
  change (str_eqb (py "logs") default_section) with false.
  change (str_eqb (py "runs") default_section) with false.
  cbv [bind raise ret]. cbn [negb andb].
  destruct (has_section (w_conf w) (py "logs")); cbn [negb andb];
    [|reflexivity].
  destruct (has_section (w_conf w) (py "runs")); reflexivity.
Qed.

(** The state after [conf.read] has parsed the file into [c]. *)
Lemma driver_reads :
  forall ini_read w text,
    w_file w = Some text ->
    (put_conf empty_parser ;; conf_read ini_read) w
    = (match fst (ini_read text) with
       | Some e => Raise e
       | None => Return [CONF_FILENAME]
       end,
       {| w_conf := snd (ini_read text); w_file := w_file w;
          w_procs := w_procs w; w_printed := w_printed w |}).
Proof.
  intros ini_read w text H. unfold bind, put_conf, conf_read. cbn [w_file].
  rewrite H. destruct (ini_read text) as [[e|] c]; reflexivity.
Qed.

(** Every call of the driver names its pipeline [command_args], which is
    not a parameter of [__find_conf_value]: binding the arguments fails,
    whatever the values are. *)
Lemma command_args_is_rejected :
  forall lower os_exec key pipeline_args default w,
    call_find_conf_value lower os_exec [AConf]
      [("key", AStr key); ("command_args", APipeline pipeline_args);
       ("default", AStr default)]%string w
    = (Raise TypeError, w).
Proof. reflexivity. Qed.

(** C1.  The code does not do what the claim says: when [conf.ini] is
    read and has the sections [logs] and [runs], the first call of
    [__find_conf_value] raises [TypeError] while its arguments are bound.
    The driver ends with that exception: no key is resolved, no process
    is started, nothing is printed and the file is not rewritten. *)
Theorem driver_raises_TypeError :
  forall lower ini_read os_exec w text c,
    w_file w = Some text ->
    ini_read text = (None, c) ->
    has_section c (py "logs") = true ->
    has_section c (py "runs") = true ->
    driver lower ini_read os_exec w
    = (Raise TypeError,
       {| w_conf := c; w_file := Some text; w_procs := w_procs w;
          w_printed := w_printed w |}).
Proof.
  intros * Hf Hr Hl Hn. unfold driver.
  pose proof (driver_reads ini_read w Hf) as Hread.
  rewrite Hr in Hread. cbn [fst snd] in Hread.
  unfold bind at 1 in Hread. unfold bind at 1 2.
  destruct (put_conf empty_parser w) as [[[]|e0] w0] eqn:E0;
    [|discriminate].
  rewrite Hread.
  set (w1 := {| w_conf := c |}).
  change (match [CONF_FILENAME] with [] => ?x | _ :: _ => ?y end) with y.
  unfold bind at 1. rewrite required_sections. cbn [w_conf w1].
  rewrite Hl, Hn. cbn [andb].
  unfold bind at 1. rewrite command_args_is_rejected.
  subst w1. now rewrite Hf.
Qed.

Lemma driver_raises_TypeError_witness :
  driver Scenario.lower_ascii Scenario.reader Scenario.host
    (Scenario.world empty_parser (Some Scenario.full_text))
  = (Raise TypeError,
     {| w_conf := Scenario.conf_full; w_file := Some Scenario.full_text;
        w_procs := []; w_printed := [] |}).
Proof.
  apply (@driver_raises_TypeError Scenario.lower_ascii Scenario.reader
           Scenario.host
           (Scenario.world empty_parser (Some Scenario.full_text))
           Scenario.full_text Scenario.conf_full).
  - reflexivity.
  - vm_compute. reflexivity.
  - reflexivity.
  - reflexivity.
Defined.

(** What the driver does up to the check of the required sections. *)
Lemma driver_start :
  forall lower ini_read os_exec w text,
    w_file w = Some text ->
    fst (ini_read text) = None ->
    has_section (snd (ini_read text)) (py "logs")
      && has_section (snd (ini_read text)) (py "runs") = false ->
    driver lower ini_read os_exec w
    = (Raise KeyError,
       {| w_conf := snd (ini_read text); w_file := w_file w;
          w_procs := w_procs w; w_printed := w_printed w |}).
Proof.
  intros * Hf He Hs. unfold driver.
  pose proof (driver_reads ini_read w Hf) as Hread.
  rewrite He in Hread.
  unfold bind at 1 in Hread. unfold bind at 1 2.
  destruct (put_conf empty_parser w) as [[[]|e0] w0] eqn:E0;
    [|discriminate].
  rewrite Hread.
  change (match [CONF_FILENAME] with [] => ?x | _ :: _ => ?y end) with y.
  unfold bind at 1. rewrite required_sections. cbn [w_conf].
  now rewrite Hs.
Qed.

(** C6.  If [conf.ini] cannot be opened, or is read but lacks the section
    [logs] or the section [runs], the driver ends with an exception
    ([FileNotFoundError] for the missing file, [KeyError] for a missing
    section, the reader's own error if the text cannot be parsed) before
    it has started any process, printed anything or written to the file:
    the file is as it was. *)
Theorem driver_fails_fast :
  forall lower ini_read os_exec w,
    (w_file w = None
     \/ exists text,
          w_file w = Some text
          /\ (has_section (snd (ini_read text)) (py "logs") = false
              \/ has_section (snd (ini_read text)) (py "runs") = false)) ->
    exists e,
      fst (driver lower ini_read os_exec w) = Raise e
      /\ (w_file w = None -> e = FileNotFoundError)
      /\ (forall text,
             w_file w = Some text -> fst (ini_read text) = None ->
             e = KeyError)
      /\ w_file (snd (driver lower ini_read os_exec w)) = w_file w
      /\ w_procs (snd (driver lower ini_read os_exec w)) = w_procs w
      /\ w_printed (snd (driver lower ini_read os_exec w)) = w_printed w.
Proof.
  intros lower ini_read os_exec w [Hf | (text & Hf & Hs)].
  - exists FileNotFoundError.
    assert (H : driver lower ini_read os_exec w
                = (Raise FileNotFoundError,
                   {| w_conf := empty_parser; w_file := w_file w;
                      w_procs := w_procs w; w_printed := w_printed w |})).
    { unfold driver, bind, put_conf, conf_read. cbn [w_file]. now rewrite Hf. }
    rewrite H. cbn [fst snd w_file w_procs w_printed].
    repeat split; auto. intros text Ht; congruence.
  - destruct (fst (ini_read text)) as [e|] eqn:He.
    + exists e.
      assert (H : driver lower ini_read os_exec w
                  = (Raise e,
                     {| w_conf := snd (ini_read text); w_file := w_file w;
                        w_procs := w_procs w; w_printed := w_printed w |})).
      { unfold driver.
        pose proof (driver_reads ini_read w Hf) as Hread.
        rewrite He in Hread.
        unfold bind at 1 in Hread. unfold bind at 1 2.
        destruct (put_conf empty_parser w) as [[[]|e0] w0] eqn:E0;
          [|discriminate].
        now rewrite Hread. }
      rewrite H. cbn [fst snd w_file w_procs w_printed].
      repeat split; auto; [congruence|].
      intros text' Ht' He'. congruence.
    + exists KeyError.
      rewrite (@driver_start lower ini_read os_exec w text Hf He).
      * cbn [fst snd w_file w_procs w_printed].
        repeat split; auto. congruence.
      * destruct Hs as [-> | ->]; [reflexivity | apply andb_false_r].
Qed.

Lemma driver_fails_fast_witness :
  exists e,
    fst (driver Scenario.lower_ascii Scenario.reader Scenario.host
           (Scenario.world empty_parser (Some (py "[main]")))) = Raise e
    /\ (w_file (Scenario.world empty_parser (Some (py "[main]"))) = None ->
        e = FileNotFoundError)
    /\ (forall text,
           w_file (Scenario.world empty_parser (Some (py "[main]")))
             = Some text ->
           fst (Scenario.reader text) = None -> e = KeyError)
    /\ w_file (snd (driver Scenario.lower_ascii Scenario.reader Scenario.host
                      (Scenario.world empty_parser (Some (py "[main]")))))
       = w_file (Scenario.world empty_parser (Some (py "[main]")))
    /\ w_procs (snd (driver Scenario.lower_ascii Scenario.reader
                       Scenario.host
                       (Scenario.world empty_parser (Some (py "[main]")))))
       = w_procs (Scenario.world empty_parser (Some (py "[main]")))
    /\ w_printed (snd (driver Scenario.lower_ascii Scenario.reader
                         Scenario.host
                         (Scenario.world empty_parser (Some (py "[main]")))))
       = w_printed (Scenario.world empty_parser (Some (py "[main]"))).
Proof.
  apply (@driver_fails_fast Scenario.lower_ascii Scenario.reader
           Scenario.host (Scenario.world empty_parser (Some (py "[main]")))).
  right. exists (py "[main]"). split; [reflexivity|].
  left. vm_compute. reflexivity.
Defined.

(** The two scenarios of the specification: no file, and a file with
    only [main]. *)
Example missing_file_scenario :
  driver Scenario.lower_ascii Scenario.reader Scenario.host
    (Scenario.world empty_parser None)
  = (Raise FileNotFoundError, Scenario.world empty_parser None).
Proof. vm_compute. reflexivity. Qed.

Example missing_section_scenario :
  driver Scenario.lower_ascii Scenario.reader Scenario.host
    (Scenario.world empty_parser (Some (py "[main]")))
  = (Raise KeyError,
     Scenario.world Scenario.conf_main_only (Some (py "[main]"))).
Proof. vm_compute. reflexivity. Qed.

(** C8.  The full run of the claim, on a host where every pipeline exits
    with status 1 and a file that holds cached values for the three keys:
    the driver ends with [TypeError] at its first call of
    [__find_conf_value] (the defect of C1), starts no process and leaves
    the file as it was, without the header comment the claim expects at
    its top. *)
Theorem full_run_rewrites_nothing :
  Scenario.reader Scenario.full_text = (None, Scenario.conf_full)
  /\ map (cached Scenario.lower_ascii Scenario.conf_full)
       [py "apache_conf_path"; py "ood_portal_conf_path";
        py "access_log_filename"]
     = [Some (Some (py "/cached/httpd.conf"));
        Some (Some (py "/cached/ood-portal.conf"));
        Some (Some (py "cached_access.log"))]
  /\ map (fun pipeline =>
            fst (run_pipeline Scenario.failing_host pipeline
                   (Scenario.world Scenario.conf_full
                      (Some Scenario.full_text))))
       [apache_pipeline; ood_portal_pipeline;
        access_log_pipeline (py "/cached/ood-portal.conf")]
     = repeat (Return {| r_stdout := VBytes []; r_stderr := VNone;
                         r_code := 1 |}) 3
  /\ driver Scenario.lower_ascii Scenario.reader Scenario.failing_host
       (Scenario.world empty_parser (Some Scenario.full_text))
     = (Raise TypeError,
        Scenario.world Scenario.conf_full (Some Scenario.full_text))
  /\ Scenario.full_text <> comment_header ++ Scenario.full_text.
Proof.
  split; [vm_compute; reflexivity|].
  split; [vm_compute; reflexivity|].
  split; [vm_compute; reflexivity|].
  split; [vm_compute; reflexivity|].
  vm_compute. discriminate.
Qed.

(* ===================================================================== *)
(** ** More on the pipeline runner *)
(* ===================================================================== *)

Section RunnerFacts.

Variable os_exec : list pystr -> Exc (option bytes -> Completed).

(** The loop on a chain whose commands all start ends with the process
    of the last command, fed with what the chain before it produced. *)
Lemma start_all_last :
  forall pre old w a behaviour,
    (forall x, In x pre -> exists bh, os_exec x = inr bh) ->
    os_exec a = inr behaviour ->
    fst (start_all os_exec old (pre ++ [a]) w)
    = Return
        (Some {| args := a;
                 stdin := chain_output os_exec (input_of old) pre;
                 stdout_arg := PIPE; stderr_arg := DEVNULL;
                 stdout :=
                   Some (out (behaviour
                                (chain_output os_exec (input_of old) pre)));
                 stderr := None;
                 returncode :=
                   status (behaviour
                             (chain_output os_exec (input_of old) pre)) |}).
Proof.
  induction pre as [|x pre IH]; intros old w a behaviour Hall Ha.
  - simpl. unfold bind. rewrite (@Popen_starts _ _ _ _ _ _ _ Ha). reflexivity.
  - destruct (Hall x (or_introl eq_refl)) as [bh Hx].
    simpl. unfold bind at 1. rewrite (@Popen_starts _ _ _ _ _ _ _ Hx). cbv zeta.
    rewrite Hx.
    rewrite (IH _ _ a behaviour); [reflexivity | | exact Ha].
    intros y Hy. apply Hall. now right.
Qed.

(** The loop stops at the first command that cannot be started: the
    commands before it have been started, the ones after it never are. *)
Lemma start_all_stops :
  forall pre old w a post e,
    (forall x, In x pre -> exists bh, os_exec x = inr bh) ->
    os_exec a = inl e ->
    exists ps,
      start_all os_exec old (pre ++ a :: post) w = (Raise e, after w [] ps)
      /\ map args ps = pre.
Proof.
  induction pre as [|x pre IH]; intros old w a post e Hall Ha.
  - exists []. simpl. unfold bind. rewrite (@Popen_fails _ _ _ _ _ _ _ Ha).
    now rewrite after_nothing.
  - destruct (Hall x (or_introl eq_refl)) as [bh Hx].
    simpl. unfold bind at 1. rewrite (@Popen_starts _ _ _ _ _ _ _ Hx).
    cbv beta iota zeta.
    match goal with
    | |- context [start_all os_exec (Some ?q) _ ?w1] =>
        destruct (IH (Some q) w1 a post e) as (ps & Hs & Hm);
        [intros y Hy; apply Hall; now right | exact Ha |];
        exists (q :: ps); rewrite Hs, after_after; simpl; now rewrite Hm
    end.
Qed.

(** What [__run_pipeline] returns once the loop has ended on [last]. *)
Lemma run_pipeline_from_last :
  forall args_ w w0 last,
    fst (start_all os_exec None args_ w0) = Return (Some last) ->
    fst (run_pipeline os_exec args_ w)
    = match convert (of_stream (stdout last)) with
      | inl e => Raise e
      | inr so =>
          match convert (of_stream (stderr last)) with
          | inl e => Raise e
          | inr se =>
              Return {| r_stdout := so; r_stderr := se;
                        r_code := returncode last |}
          end
      end.
Proof.
  intros args_ w w0 last H.
  rewrite (start_all_outcome os_exec args_ None w0
             (after w [running_line args_] [])) in H.
  unfold run_pipeline. cbv beta iota delta [DEBUG].
  rewrite (@bind_run _ _ _ _ w _ _ (print_run _ w)).
  destruct (start_all os_exec None args_ (after w [running_line args_] []))
    as [o w1] eqn:E. cbn [fst] in H. subst o.
  rewrite (@bind_run _ _ _ _ _ _ _ E).
  unfold communicate, bind, lift.
  destruct (convert (of_stream (stdout last))); [reflexivity|].
  simpl. destruct (convert (of_stream (stderr last))); reflexivity.
Qed.

End RunnerFacts.

(** X1.  When every command of a pipeline starts, the outcome of
    [__run_pipeline] is that of its last command alone, run on the bytes
    the commands before it produce: its exit status, and its standard
    output converted (or the error of the conversion).  The exit statuses
    and the standard errors of the earlier commands play no part. *)
Theorem pipeline_result_is_last_command :
  forall os_exec pre a behaviour w,
    (forall x, In x pre -> exists bh, os_exec x = inr bh) ->
    os_exec a = inr behaviour ->
    fst (run_pipeline os_exec (pre ++ [a]) w)
    = match
        convert (VBytes (out (behaviour (chain_output os_exec None pre))))
      with
      | inl e => Raise e
      | inr so =>
          Return {| r_stdout := so; r_stderr := VNone;
                    r_code :=
                      status (behaviour (chain_output os_exec None pre)) |}
      end.
Proof.
  intros os_exec pre a behaviour w Hall Ha.
  rewrite (@run_pipeline_from_last os_exec (pre ++ [a]) w w _
             (@start_all_last os_exec pre None w a behaviour Hall Ha)).
  cbn [stdout stderr returncode of_stream input_of].
  destruct (convert (VBytes _)); reflexivity.
Qed.

Lemma pipeline_result_is_last_command_witness :
  fst (run_pipeline Scenario.host
         ([Scenario.sh_oops; Scenario.false_] ++ [Scenario.echo_hello])
         (Scenario.world empty_parser None))
  = Return {| r_stdout := VStr (py "hello"); r_stderr := VNone;
              r_code := 0 |}.
Proof.
  rewrite (@pipeline_result_is_last_command Scenario.host
             [Scenario.sh_oops; Scenario.false_] Scenario.echo_hello
             (fun _ => {| out := b "hello" ++ [Scenario.LFb]; err := [];
                          status := 0 |})).
  - vm_compute. reflexivity.
  - intros x [<- | [<- | []]]; eexists; vm_compute; reflexivity.
  - vm_compute. reflexivity.
Defined.

(** X2.  When a command of the pipeline cannot be started while the ones
    before it can, [__run_pipeline] raises the error of that launch; the
    commands before it have been started and are left running, and no
    command after it is started. *)
Theorem pipeline_stops_at_failed_start :
  forall os_exec pre a post e w,
    (forall x, In x pre -> exists bh, os_exec x = inr bh) ->
    os_exec a = inl e ->
    fst (run_pipeline os_exec (pre ++ a :: post) w) = Raise e
    /\ exists ps,
         w_procs (snd (run_pipeline os_exec (pre ++ a :: post) w))
           = w_procs w ++ ps
         /\ map args ps = pre.
Proof.
  intros os_exec pre a post e w Hall Ha.
  destruct (@start_all_stops os_exec pre None
              (after w [running_line (pre ++ a :: post)] []) a post e
              Hall Ha)
    as (ps & Hs & Hm).
  unfold run_pipeline. cbv beta iota delta [DEBUG].
  rewrite (@bind_run _ _ _ _ w _ _ (print_run _ w)).
  rewrite (@bind_raise _ _ _ _ _ _ _ Hs).
  split; [reflexivity|]. exists ps.
  split; [cbn [snd]; rewrite after_after; reflexivity | exact Hm].
Qed.

Lemma pipeline_stops_at_failed_start_witness :
  fst (run_pipeline Scenario.host
         ([Scenario.echo_hello] ++ [py "httpd"] :: [Scenario.cat])
         (Scenario.world empty_parser None))
    = Raise FileNotFoundError
  /\ exists ps,
       w_procs (snd (run_pipeline Scenario.host
                       ([Scenario.echo_hello] ++ [py "httpd"]
                                                   :: [Scenario.cat])
                       (Scenario.world empty_parser None)))
         = w_procs (Scenario.world empty_parser None) ++ ps
       /\ map args ps = [Scenario.echo_hello].
Proof.
  apply (@pipeline_stops_at_failed_start Scenario.host
           [Scenario.echo_hello] [py "httpd"] [Scenario.cat]
           FileNotFoundError (Scenario.world empty_parser None)).
  - intros x [<- | []]; eexists; vm_compute; reflexivity.
  - vm_compute. reflexivity.
Defined.

(** The text [rstrip] returns does not end with a whitespace
    character. *)
Lemma rstrip_no_trailing_space :
  forall t pre c, rstrip t = pre ++ [c] -> isspace c = false.
Proof.
  induction t as [|x t IH]; intros pre c H.
  - destruct pre; discriminate.
  - simpl in H. destruct (rstrip t) as [|y t'] eqn:E.
    + destruct (isspace x) eqn:Ex.
      * destruct pre; discriminate.
      * destruct pre as [|p pre].
        -- injection H as <-. exact Ex.
        -- destruct pre; discriminate.
    + destruct pre as [|p pre].
      * discriminate.
      * injection H as _ H. exact (IH pre c H).
Qed.

(** X3.  The [stdout] entry of a returned record is never [None] and
    never a non-empty bytes object: it is the empty bytes object when the
    last command wrote nothing, and otherwise the decoded output with its
    trailing whitespace removed, a text that does not end with a
    whitespace character (and is the empty text when the output was
    whitespace only). *)
Theorem returned_stdout_shape :
  forall os_exec args_ w r,
    fst (run_pipeline os_exec args_ w) = Return r ->
    (chain_output os_exec None args_ = Some [] /\ r_stdout r = VBytes [])
    \/ exists data text,
         chain_output os_exec None args_ = Some data
         /\ data <> []
         /\ decode_utf8 data = Some text
         /\ r_stdout r = VStr (rstrip text)
         /\ forall pre c, rstrip text = pre ++ [c] -> isspace c = false.
Proof.
  intros os_exec args_ w r H.
  destruct (run_pipeline_spec os_exec args_ w) as (ps & _ & _ & Hs & _ & Hr).
  rewrite H in Hr. destruct Hr as (_ & last & Hl & _ & _ & Hc & Ho).
  assert (Hout : exists data, stdout last = Some data).
  { apply last_started_In in Hl as [Hin | [_ Habs]]; [|discriminate].
    rewrite Forall_forall in Hs. destruct (Hs last Hin) as (bh & _ & Hb & _).
    eauto. }
  destruct Hout as [data Hd]. rewrite Hd in Hc, Ho. symmetry in Hc.
  cbn [of_stream] in Ho. unfold convert in Ho.
  destruct data as [|x data].
  - left. cbn [truthy] in Ho. injection Ho as <-. auto.
  - right. cbn [truthy decode_rstrip] in Ho.
    destruct (decode_utf8 (x :: data)) as [text|] eqn:Ed; [|discriminate].
    injection Ho as <-. exists (x :: data), text.
    repeat split; auto; [discriminate|].
    apply rstrip_no_trailing_space.
Qed.

Lemma returned_stdout_shape_witness :
  (chain_output Scenario.host None [Scenario.printf_spaces] = Some []
   /\ r_stdout {| r_stdout := VStr (py "a"); r_stderr := VNone; r_code := 0 |}
      = VBytes [])
  \/ exists data text,
       chain_output Scenario.host None [Scenario.printf_spaces] = Some data
       /\ data <> []
       /\ decode_utf8 data = Some text
       /\ r_stdout {| r_stdout := VStr (py "a"); r_stderr := VNone;
                      r_code := 0 |}
          = VStr (rstrip text)
       /\ forall pre c, rstrip text = pre ++ [c] -> isspace c = false.
Proof.
  apply (@returned_stdout_shape Scenario.host [Scenario.printf_spaces]
           (Scenario.world empty_parser None)).
  vm_compute. reflexivity.
Defined.

(** Output that is whitespace only comes back as the empty text, not as
    an absent value. *)
Example whitespace_output_is_empty_text :
  convert (VBytes (b "  " ++ [Scenario.LFb])) = inr (VStr []).
Proof. vm_compute. reflexivity. Qed.

(** X4.  Whatever its outcome, [__run_pipeline] leaves the parser
    object of the script as it was: it prints its one line, leaves the
    processes that were there before, and adds the ones it started. *)
Theorem run_pipeline_keeps_conf :
  forall os_exec args_ w,
    w_conf (snd (run_pipeline os_exec args_ w)) = w_conf w
    /\ w_printed (snd (run_pipeline os_exec args_ w))
       = w_printed w ++ [running_line args_]
    /\ exists ps,
         w_procs (snd (run_pipeline os_exec args_ w)) = w_procs w ++ ps.
Proof.
  intros os_exec args_ w.
  destruct (run_pipeline_spec os_exec args_ w) as (ps & Hw & _).
  rewrite Hw. repeat split. exists ps. reflexivity.
Qed.

(* ===================================================================== *)
(** ** More on the value resolver *)
(* ===================================================================== *)

(** *** Values without a percent sign *)

Lemma contains_cons :
  forall c x s,
    contains c (x :: s) = false -> (x =? c)%N = false /\ contains c s = false.
Proof.
  unfold contains; simpl; intros c x s H.
  apply orb_false_iff in H as [H1 H2]. rewrite N.eqb_sym. auto.
Qed.

Lemma match_key_needs_percent :
  forall x s, (x =? PERCENT)%N = false -> match_key (x :: s) = None.
Proof.
  intros x s H. unfold match_key. destruct s; [reflexivity|].
  now rewrite H.
Qed.

Lemma drop_escaped_plain :
  forall s, contains PERCENT s = false -> drop_escaped s = s.
Proof.
  induction s as [|x s IH]; intros H; [reflexivity|].
  apply contains_cons in H as [Hx Hs]. simpl.
  destruct s as [|y s]; [reflexivity|].
  rewrite Hx. cbn [andb]. now rewrite (IH Hs).
Qed.

Lemma drop_keys_plain :
  forall s, contains PERCENT s = false -> drop_keys 0 s = s.
Proof.
  induction s as [|x s IH]; intros H; [reflexivity|].
  apply contains_cons in H as [Hx Hs].
  cbn [drop_keys]. rewrite (@match_key_needs_percent x s Hx).
  now rewrite (IH Hs).
Qed.

(** A value without a percent sign passes the check of [conf.set] and
    is read back by [conf.get] as it is. *)
Lemma before_set_plain :
  forall v, contains PERCENT v = false -> before_set v = inr v.
Proof.
  intros v H. unfold before_set.
  now rewrite (@drop_escaped_plain v H), (@drop_keys_plain v H), H.
Qed.

Lemma interpolate_plain :
  forall lower budget map v,
    contains PERCENT v = false ->
    interpolate_some lower (S budget) map v = inr v.
Proof.
  intros lower budget map v. induction v as [|x v IH]; intros H.
  - reflexivity.
  - apply contains_cons in H as [Hx Hv]. specialize (IH Hv).
    simpl in IH |- *. rewrite Hx. now rewrite IH.
Qed.

Lemma get_cached_plain :
  forall lower c key v,
    cached lower c key = Some (Some v) ->
    contains PERCENT v = false ->
    get lower c (py "main") key = inr (Some v).
Proof.
  intros lower c key v H Hv. unfold cached in H.
  unfold get, unify_values, optionxform.
  destruct (lookup (py "main") (sections c)) as [sd|]; [|discriminate].
  cbn [exc_bind]. rewrite H. unfold before_get, MAX_INTERPOLATION_DEPTH.
  now rewrite (@interpolate_plain lower _ _ v Hv).
Qed.

(** Assigning to a key the value it already has changes nothing. *)
Lemma assign_same :
  forall (V : Type) (k : pystr) (v : V) d,
    lookup k d = Some v -> assign k v d = d.
Proof.
  induction d as [|[k' v'] d IH]; simpl; intros H; [discriminate|].
  destruct (str_eqb k k') eqn:E.
  - apply str_eqb_eq in E. congruence.
  - now rewrite (IH H).
Qed.

Lemma set_cached_again :
  forall lower c key v,
    cached lower c key = Some (Some v) ->
    before_set v = inr v ->
    set lower c (py "main") key (Some v) = inr c.
Proof.
  intros lower c key v H Hv. unfold cached in H. unfold set, optionxform.
  destruct (lookup (py "main") (sections c)) as [sd|] eqn:Hm;
    [|discriminate].
  assert (Hc : {| defaults := defaults c;
                  sections := assign (py "main")
                                (assign (lower key) (Some v) sd)
                                (sections c) |} = c).
  { rewrite (@assign_same (option pystr) _ _ _ H).
    rewrite (@assign_same (list (pystr * option pystr)) _ _ _ Hm).
    now destruct c. }
  destruct v as [|x v].
  - simpl. simpl in Hc. now rewrite Hc.
  - rewrite Hv. simpl. simpl in Hc. now rewrite Hc.
Qed.

(** *** The branches of the resolver *)

(** After a pipeline that returned the code 0 and a text, the call goes
    on to record that text. *)
Lemma resolver_takes_stdout :
  forall lower os_exec key pipeline_args default w r v,
    fst (run_pipeline os_exec pipeline_args w) = Return r ->
    r_code r = 0%Z ->
    r_stdout r = VStr v ->
    exists w2,
      w_conf w2 = w_conf w
      /\ find_conf_value lower os_exec key pipeline_args default w
         = (conf_set lower (py "main") key v ;; ret v) w2.
Proof.
  intros * Hr Hc Hv.
  destruct (@resolver_runs_pipeline os_exec key pipeline_args w r Hr)
    as (w1 & Hconf & Hfile & Hrun).
  unfold find_conf_value. cbv beta iota delta [DEBUG].
  rewrite (@bind_run _ _ _ _ _ _ _ (print_run _ w)).
  rewrite (@bind_run _ _ _ _ _ _ _ Hrun).
  rewrite Hc, Hv. cbn [Z.eqb concat_str lift].
  set (line := (py "Got value of " ++ key ++ py " programmatically: ") ++ v).
  exists (after w1 [line] []). split; [exact Hconf|].
  unfold bind, ret, print, after. cbn [fst snd].
  now rewrite !app_nil_r.
Qed.

(** After a pipeline that returned a non-zero code, a cached entry that
    is a non-empty text is what the call goes on to record. *)
Lemma resolver_takes_cached :
  forall lower os_exec key pipeline_args default w r x v,
    fst (run_pipeline os_exec pipeline_args w) = Return r ->
    r_code r <> 0%Z ->
    get lower (w_conf w) (py "main") key = inr (Some (x :: v)) ->
    exists w2,
      w_conf w2 = w_conf w
      /\ find_conf_value lower os_exec key pipeline_args default w
         = (conf_set lower (py "main") key (x :: v) ;; ret (x :: v)) w2.
Proof.
  intros * Hr Hc Hg.
  destruct (@resolver_runs_pipeline os_exec key pipeline_args w r Hr)
    as (w1 & Hconf & Hfile & Hrun).
  unfold find_conf_value. cbv beta iota delta [DEBUG].
  rewrite (@bind_run _ _ _ _ _ _ _ (print_run _ w)).
  rewrite (@bind_run _ _ _ _ _ _ _ Hrun).
  destruct (Z.eqb_spec (r_code r) 0) as [|_]; [contradiction|].
  assert (Hget : conf_get lower (py "main") key w1
                 = (Return (Some (x :: v)), w1)).
  { rewrite conf_get_run, Hconf, Hg. reflexivity. }
  set (line := py "Got value of " ++ key ++ py " from " ++ CONF_FILENAME
               ++ py ": " ++ x :: v).
  exists (after w1 [line] []). split; [exact Hconf|].
  match goal with
  | |- bind (bind _ ?f) _ _ = _ =>
      assert (Hin : bind (conf_get lower (py "main") key) f w1
                    = (Return (x :: v), after w1 [line] []))
  end.
  { rewrite (@bind_run _ _ _ _ _ _ _ Hget). cbn [nonempty andb].
    now rewrite (@bind_run _ _ _ _ _ _ _ (print_run _ w1)). }
  now rewrite (@bind_run _ _ _ _ _ _ _ Hin).
Qed.

(** *** What a statement leaves untouched *)

Section Preservation.

Variables (T : Type) (component : World -> T).

(** The component is one that printing and starting processes do not
    touch: the parser object or the file. *)
Hypothesis component_after :
  forall w lines ps, component (after w lines ps) = component w.

Lemma preserves_ret : forall (A : Type) (a : A), preserves component (ret a).
Proof. intros A a w. reflexivity. Qed.

Lemma preserves_raise :
  forall (A : Type) (e : PyExc), preserves component (@raise A e).
Proof. intros A e w. reflexivity. Qed.

Lemma preserves_lift :
  forall (A : Type) (x : Exc A), preserves component (lift x).
Proof. intros A [e|a] w; reflexivity. Qed.

Lemma preserves_bind :
  forall (A B : Type) (m : M A) (f : A -> M B),
    preserves component m ->
    (forall a, preserves component (f a)) ->
    preserves component (bind m f).
Proof.
  intros A B m f Hm Hf w. unfold bind. specialize (Hm w).
  destruct (m w) as [[a|e] w1]; cbn [snd] in Hm.
  - now rewrite (Hf a w1).
  - exact Hm.
Qed.

Lemma preserves_print : forall line, preserves component (print line).
Proof. intros line w. rewrite print_run. apply component_after. Qed.

Lemma preserves_run_pipeline :
  forall os_exec args_, preserves component (run_pipeline os_exec args_).
Proof.
  intros os_exec args_ w.
  destruct (run_pipeline_spec os_exec args_ w) as (ps & Hw & _).
  rewrite Hw. apply component_after.
Qed.

Lemma preserves_conf_get :
  forall lower section key, preserves component (conf_get lower section key).
Proof. intros lower section key w. now rewrite conf_get_run. Qed.

(** The statements of [__find_conf_value] before the final [conf.set]:
    they choose the value and change neither the parser object nor the
    file. *)
Lemma preserves_choice :
  forall lower key default pipeline_results,
    preserves component
      (if (r_code pipeline_results =? 0)%Z then
         line <- lift (concat_str
                         (py "Got value of " ++ key
                          ++ py " programmatically: ")
                         (r_stdout pipeline_results)) ;;
         print line ;;
         match r_stdout pipeline_results with
         | VStr value => ret value
         | _ => raise TypeError
         end
       else
         value <- conf_get lower (py "main") key ;;
         match value with
         | Some value' =>
             if nonempty value && DEBUG then
               print (py "Got value of " ++ key ++ py " from "
                      ++ CONF_FILENAME ++ py ": " ++ value') ;;
               ret value'
             else
               (if DEBUG
                then print (py "Using default value for " ++ key
                            ++ py ": " ++ default)
                else ret tt) ;;
               ret default
         | None =>
             (if DEBUG
              then print (py "Using default value for " ++ key
                          ++ py ": " ++ default)
              else ret tt) ;;
             ret default
         end).
Proof.
  intros lower key default r. destruct (r_code r =? 0)%Z.
  - apply preserves_bind; [apply preserves_lift|]. intros line.
    apply preserves_bind; [apply preserves_print|]. intros _.
    destruct (r_stdout r);
      [apply preserves_raise | apply preserves_raise | apply preserves_ret].
  - apply preserves_bind; [apply preserves_conf_get|]. intros [value|].
    + destruct (nonempty (Some value) && DEBUG);
        (apply preserves_bind; [apply preserves_print|]);
        intros _; apply preserves_ret.
    + apply preserves_bind; [apply preserves_print|].
      intros _; apply preserves_ret.
Qed.

Lemma preserves_outcome :
  forall (A : Type) (m : M A) w o w1,
    preserves component m -> m w = (o, w1) -> component w1 = component w.
Proof. intros A m w o w1 Hm H. specialize (Hm w). now rewrite H in Hm. Qed.

End Preservation.

(** A call that returns has passed its value to [conf.set] on the parser
    object as the call found it. *)
Lemma resolver_return_inv :
  forall lower os_exec key pipeline_args default w value w',
    find_conf_value lower os_exec key pipeline_args default w
      = (Return value, w') ->
    set lower (w_conf w) (py "main") key (Some value) = inr (w_conf w').
Proof.
  intros * H. unfold find_conf_value in H.
  apply bind_Return in H as (u & w0 & H0 & H).
  apply bind_Return in H as (r & w1 & H1 & H).
  apply bind_Return in H as (v & w2 & H2 & H).
  apply bind_Return in H as ([] & w3 & Hset & H).
  unfold ret in H. injection H as <- <-.
  assert (Hafter : forall w lines ps, w_conf (after w lines ps) = w_conf w)
    by reflexivity.
  apply (@preserves_outcome _ w_conf _ _ _ _ _
           (@preserves_print _ w_conf Hafter _)) in H0.
  apply (@preserves_outcome _ w_conf _ _ _ _ _
           (@preserves_run_pipeline _ w_conf Hafter _ _)) in H1.
  apply (@preserves_outcome _ w_conf _ _ _ _ _
           (@preserves_choice _ w_conf Hafter _ _ _ _)) in H2.
  rewrite conf_set_run in Hset. rewrite <- H0, <- H1, <- H2.
  destruct (set lower (w_conf w2) (py "main") key (Some v)) as [e|c];
    [discriminate|].
  now injection Hset as <-.
Qed.

(** X5.  When the pipeline returns the code 0 and a text, the call
    returns that text, whatever is cached under the key and whatever the
    default is, and leaves it as the entry of [main] under the key;
    this needs [main] to exist and the text to pass the check of
    [conf.set]. *)
Theorem live_value_is_returned :
  forall lower os_exec key pipeline_args default w r v sectdict,
    fst (run_pipeline os_exec pipeline_args w) = Return r ->
    r_code r = 0%Z ->
    r_stdout r = VStr v ->
    lookup (py "main") (sections (w_conf w)) = Some sectdict ->
    before_set v = inr v ->
    fst (find_conf_value lower os_exec key pipeline_args default w)
      = Return v
    /\ cached lower
         (w_conf (snd (find_conf_value lower os_exec key pipeline_args
                         default w))) key
       = Some (Some v).
Proof.
  intros * Hr Hc Hv Hm Hs.
  destruct (@resolver_takes_stdout lower os_exec key pipeline_args default
              w r v Hr Hc Hv) as (w2 & Hconf & Heq).
  rewrite Heq. rewrite <- Hconf in Hm.
  destruct (@set_main_succeeds lower (w_conf w2) key v sectdict Hm Hs)
    as [c' Hset].
  unfold bind. rewrite conf_set_run, Hset. cbn [fst snd ret w_conf].
  split; [reflexivity|].
  apply set_main_cached in Hset as [Hset _]. exact Hset.
Qed.

Lemma live_value_is_returned_witness :
  fst (find_conf_value Scenario.lower_ascii Scenario.host
         (py "apache_conf_path") [Scenario.echo_hello] (py "/default/path")
         (Scenario.world Scenario.conf_full None))
    = Return (py "hello")
  /\ cached Scenario.lower_ascii
       (w_conf (snd (find_conf_value Scenario.lower_ascii Scenario.host
                       (py "apache_conf_path") [Scenario.echo_hello]
                       (py "/default/path")
                       (Scenario.world Scenario.conf_full None))))
       (py "apache_conf_path")
     = Some (Some (py "hello")).
Proof.
  apply (@live_value_is_returned Scenario.lower_ascii Scenario.host
           (py "apache_conf_path") [Scenario.echo_hello] (py "/default/path")
           (Scenario.world Scenario.conf_full None)
           {| r_stdout := VStr (py "hello"); r_stderr := VNone; r_code := 0 |}
           (py "hello")
           (snd (hd (py "main", []) (sections Scenario.conf_full)))).
  - vm_compute. reflexivity.
  - reflexivity.
  - reflexivity.
  - vm_compute. reflexivity.
  - vm_compute. reflexivity.
Defined.

(** X6.  When the pipeline returns the code 0 and its last command wrote
    nothing, the [stdout] entry is the empty bytes object and the call
    raises [TypeError] while it builds its message: it returns no value
    and the parser object is as it was. *)
Theorem successful_empty_output_raises :
  forall lower os_exec key pipeline_args default w r,
    fst (run_pipeline os_exec pipeline_args w) = Return r ->
    r_code r = 0%Z ->
    r_stdout r = VBytes [] ->
    fst (find_conf_value lower os_exec key pipeline_args default w)
      = Raise TypeError
    /\ w_conf (snd (find_conf_value lower os_exec key pipeline_args default w))
       = w_conf w.
Proof.
  intros * Hr Hc Hv.
  destruct (@resolver_runs_pipeline os_exec key pipeline_args w r Hr)
    as (w1 & Hconf & Hfile & Hrun).
  unfold find_conf_value. cbv beta iota delta [DEBUG].
  rewrite (@bind_run _ _ _ _ _ _ _ (print_run _ w)).
  rewrite (@bind_run _ _ _ _ _ _ _ Hrun).
  rewrite Hc, Hv. cbn [Z.eqb concat_str lift].
  unfold bind, raise. cbn [fst snd]. auto.
Qed.

Lemma successful_empty_output_raises_witness :
  fst (find_conf_value Scenario.lower_ascii Scenario.host
         (py "apache_conf_path") [Scenario.true_] (py "/default/path")
         (Scenario.world Scenario.conf_full None))
    = Raise TypeError
  /\ w_conf (snd (find_conf_value Scenario.lower_ascii Scenario.host
                    (py "apache_conf_path") [Scenario.true_]
                    (py "/default/path")
                    (Scenario.world Scenario.conf_full None)))
     = Scenario.conf_full.
Proof.
  apply (@successful_empty_output_raises Scenario.lower_ascii Scenario.host
           (py "apache_conf_path") [Scenario.true_] (py "/default/path")
           (Scenario.world Scenario.conf_full None)
           {| r_stdout := VBytes []; r_stderr := VNone; r_code := 0 |}).
  - vm_compute. reflexivity.
  - reflexivity.
  - reflexivity.
Defined.

(** X7.  When the pipeline returns a non-zero code and [main] holds a
    non-empty text without a percent sign under the key, the call returns
    that text (not the default) and the parser object is exactly as it
    was. *)
Theorem cached_value_is_kept :
  forall lower os_exec key pipeline_args default w r x v,
    fst (run_pipeline os_exec pipeline_args w) = Return r ->
    r_code r <> 0%Z ->
    cached lower (w_conf w) key = Some (Some (x :: v)) ->
    contains PERCENT (x :: v) = false ->
    fst (find_conf_value lower os_exec key pipeline_args default w)
      = Return (x :: v)
    /\ w_conf (snd (find_conf_value lower os_exec key pipeline_args default w))
       = w_conf w.
Proof.
  intros * Hr Hc Hk Hp.
  destruct (@resolver_takes_cached lower os_exec key pipeline_args default
              w r x v Hr Hc (@get_cached_plain lower _ _ _ Hk Hp))
    as (w2 & Hconf & Heq).
  rewrite Heq. rewrite <- Hconf in Hk |- *.
  unfold bind. rewrite conf_set_run.
  rewrite (@set_cached_again lower _ _ _ Hk (@before_set_plain _ Hp)).
  cbn [fst snd ret w_conf]. now destruct w2.
Qed.

Lemma cached_value_is_kept_witness :
  fst (find_conf_value Scenario.lower_ascii Scenario.host
         (py "Apache_Conf_Path") [Scenario.false_] (py "/default/path")
         (Scenario.world Scenario.conf_full None))
    = Return (py "/cached/httpd.conf")
  /\ w_conf (snd (find_conf_value Scenario.lower_ascii Scenario.host
                    (py "Apache_Conf_Path") [Scenario.false_]
                    (py "/default/path")
                    (Scenario.world Scenario.conf_full None)))
     = Scenario.conf_full.
Proof.
  apply (@cached_value_is_kept Scenario.lower_ascii Scenario.host
           (py "Apache_Conf_Path") [Scenario.false_] (py "/default/path")
           (Scenario.world Scenario.conf_full None)
           {| r_stdout := VBytes []; r_stderr := VNone; r_code := 1 |}
           47%N (py "cached/httpd.conf")).
  - vm_compute. reflexivity.
  - discriminate.
  - vm_compute. reflexivity.
  - vm_compute. reflexivity.
Defined.

(** X8.  What one call found is what a later call falls back to: after a
    call that returned a non-empty text without a percent sign, a call
    for the same key whose pipeline returns a non-zero code returns that
    same text, whatever its default. *)
Theorem found_value_is_later_fallback :
  forall lower os_exec key pipeline1 default1 pipeline2 default2
         w x v w1 r,
    find_conf_value lower os_exec key pipeline1 default1 w
      = (Return (x :: v), w1) ->
    contains PERCENT (x :: v) = false ->
    fst (run_pipeline os_exec pipeline2 w1) = Return r ->
    r_code r <> 0%Z ->
    fst (find_conf_value lower os_exec key pipeline2 default2 w1)
      = Return (x :: v).
Proof.
  intros * H1 Hp Hr Hc.
  apply resolver_return_inv in H1. apply set_main_cached in H1 as [Hk _].
  destruct (@resolver_takes_cached lower os_exec key pipeline2 default2
              w1 r x v Hr Hc (@get_cached_plain lower _ _ _ Hk Hp))
    as (w2 & Hconf & Heq).
  rewrite Heq. rewrite <- Hconf in Hk.
  unfold bind. rewrite conf_set_run.
  rewrite (@set_cached_again lower _ _ _ Hk (@before_set_plain _ Hp)).
  reflexivity.
Qed.

Lemma found_value_is_later_fallback_witness :
  fst (find_conf_value Scenario.lower_ascii Scenario.host
         (py "apache_conf_path") [Scenario.false_] (py "/other/default")
         (snd (find_conf_value Scenario.lower_ascii Scenario.host
                 (py "apache_conf_path") [Scenario.echo_hello]
                 (py "/default/path")
                 (Scenario.world Scenario.conf_full None))))
  = Return (py "hello").
Proof.
  apply (@found_value_is_later_fallback Scenario.lower_ascii Scenario.host
           (py "apache_conf_path") [Scenario.echo_hello] (py "/default/path")
           [Scenario.false_] (py "/other/default")
           (Scenario.world Scenario.conf_full None) 104%N (py "ello") _
           {| r_stdout := VBytes []; r_stderr := VNone; r_code := 1 |}).
  - vm_compute. reflexivity.
  - vm_compute. reflexivity.
  - vm_compute. reflexivity.
  - discriminate.
Defined.

(** X9.  An exception of the pipeline runner (a command that cannot be
    started, the empty pipeline, output that is not UTF-8) is not caught:
    the call raises it, falls back neither on the cached value nor on the
    default, and leaves the parser object as it was. *)
Theorem pipeline_error_propagates :
  forall lower os_exec key pipeline_args default w e,
    fst (run_pipeline os_exec pipeline_args w) = Raise e ->
    fst (find_conf_value lower os_exec key pipeline_args default w) = Raise e
    /\ w_conf (snd (find_conf_value lower os_exec key pipeline_args default w))
       = w_conf w.
Proof.
  intros * Hr.
  set (w0 := after w [py "Finding conf value of " ++ key] []).
  destruct (run_pipeline_spec os_exec pipeline_args w0) as (ps & Hw & _).
  pose proof (run_pipeline_outcome os_exec pipeline_args w w0) as Ho.
  rewrite Hr in Ho.
  destruct (run_pipeline os_exec pipeline_args w0) as [o w1] eqn:E.
  cbn [fst snd] in Hw, Ho. subst o w1.
  unfold find_conf_value. cbv beta iota delta [DEBUG].
  rewrite (@bind_run _ _ _ _ _ _ _ (print_run _ w)).
  fold w0. rewrite (@bind_raise _ _ _ _ _ _ _ E).
  repeat split.
Qed.

Lemma pipeline_error_propagates_witness :
  fst (find_conf_value Scenario.lower_ascii Scenario.host
         (py "apache_conf_path") apache_pipeline
         (py "/etc/httpd/conf/httpd.conf")
         (Scenario.world Scenario.conf_full None))
    = Raise FileNotFoundError
  /\ w_conf (snd (find_conf_value Scenario.lower_ascii Scenario.host
                    (py "apache_conf_path") apache_pipeline
                    (py "/etc/httpd/conf/httpd.conf")
                    (Scenario.world Scenario.conf_full None)))
     = w_conf (Scenario.world Scenario.conf_full None).
Proof.
  apply (@pipeline_error_propagates Scenario.lower_ascii Scenario.host
           (py "apache_conf_path") apache_pipeline
           (py "/etc/httpd/conf/httpd.conf")
           (Scenario.world Scenario.conf_full None) FileNotFoundError).
  vm_compute. reflexivity.
Defined.

(** X10.  Without a [main] section in the parser object no call of the
    resolver returns, whatever the pipeline does: even a value the
    pipeline found is lost, because [conf.set] has no section to put it
    in. *)
Theorem no_main_section_always_raises :
  forall lower os_exec key pipeline_args default w,
    lookup (py "main") (sections (w_conf w)) = None ->
    exists e,
      fst (find_conf_value lower os_exec key pipeline_args default w)
      = Raise e.
Proof.
  intros * Hm.
  destruct (find_conf_value lower os_exec key pipeline_args default w)
    as [[v|e] w'] eqn:E; [|exists e; reflexivity].
  exfalso. apply resolver_return_inv in E.
  apply set_main_cached in E as (_ & _ & sd & Hs & _). congruence.
Qed.

Lemma no_main_section_always_raises_witness :
  exists e,
    fst (find_conf_value Scenario.lower_ascii Scenario.host
           (py "apache_conf_path") [Scenario.echo_hello] (py "/default/path")
           (Scenario.world empty_parser None))
    = Raise e.
Proof.
  apply (@no_main_section_always_raises Scenario.lower_ascii Scenario.host
           (py "apache_conf_path") [Scenario.echo_hello] (py "/default/path")
           (Scenario.world empty_parser None)).
  reflexivity.
Defined.

(** The value the pipeline found is lost when [main] is missing. *)
Example found_value_lost_without_main :
  find_conf_value Scenario.lower_ascii Scenario.host
    (py "apache_conf_path") [Scenario.echo_hello] (py "/default/path")
    (Scenario.world empty_parser None)
  = (Raise NoSectionError,
     after (Scenario.world empty_parser None)
       [py "Finding conf value of apache_conf_path";
        py "Running command `echo hello`";
        py "Got value of apache_conf_path programmatically: hello"]
       [{| args := Scenario.echo_hello; stdin := None;
           stdout_arg := PIPE; stderr_arg := DEVNULL;
           stdout := Some (b "hello" ++ [Scenario.LFb]); stderr := None;
           returncode := 0 |}]).
Proof. vm_compute. reflexivity. Qed.

(** *** Failure leaves the parser object alone *)

Lemma conf_set_keeps_file :
  forall lower section key value,
    preserves w_file (conf_set lower section key value).
Proof.
  intros lower section key value w. rewrite conf_set_run.
  destruct (set lower (w_conf w) section key (Some value)); reflexivity.
Qed.

Lemma raise_keeps_conf_bind :
  forall (A B : Type) (m : M A) (f : A -> M B),
    preserves w_conf m ->
    (forall a w e, fst (f a w) = Raise e -> w_conf (snd (f a w)) = w_conf w) ->
    forall w e,
      fst (bind m f w) = Raise e -> w_conf (snd (bind m f w)) = w_conf w.
Proof.
  intros A B m f Hm Hf w e. unfold bind. specialize (Hm w).
  destruct (m w) as [[a|e0] w1]; cbn [fst snd] in *.
  - intros H. rewrite (Hf a w1 e H). exact Hm.
  - intros _. exact Hm.
Qed.

Lemma raise_keeps_conf_set :
  forall lower section key value (v : pystr) w e,
    fst ((conf_set lower section key value ;; ret v) w) = Raise e ->
    w_conf (snd ((conf_set lower section key value ;; ret v) w)) = w_conf w.
Proof.
  intros lower section key value v w e. unfold bind. rewrite conf_set_run.
  destruct (set lower (w_conf w) section key (Some value));
    cbn [fst snd ret]; [reflexivity | discriminate].
Qed.

(** X11.  A call of the resolver that raises, at whatever point, leaves
    the parser object as it was: the object changes only by the
    [conf.set] of a call that returns. *)
Theorem resolver_is_all_or_nothing :
  forall lower os_exec key pipeline_args default w e,
    fst (find_conf_value lower os_exec key pipeline_args default w)
      = Raise e ->
    w_conf (snd (find_conf_value lower os_exec key pipeline_args default w))
      = w_conf w.
Proof.
  intros lower os_exec key pipeline_args default w e.
  assert (Hconf : forall w lines ps, w_conf (after w lines ps) = w_conf w)
    by reflexivity.
  unfold find_conf_value. cbv beta iota delta [DEBUG].
  apply raise_keeps_conf_bind; [now apply preserves_print|]. intros _.
  apply raise_keeps_conf_bind; [now apply preserves_run_pipeline|].
  intros r.
  apply raise_keeps_conf_bind;
    [exact (@preserves_choice _ w_conf Hconf lower key default r)|].
  intros v. apply raise_keeps_conf_set.
Qed.

Lemma resolver_is_all_or_nothing_witness :
  w_conf (snd (find_conf_value Scenario.lower_ascii Scenario.host
                 (py "missing") [Scenario.false_] (py "/default/path")
                 (Scenario.world Scenario.conf_full
                    (Some Scenario.full_text))))
  = Scenario.conf_full.
Proof.
  apply (@resolver_is_all_or_nothing Scenario.lower_ascii Scenario.host
           (py "missing") [Scenario.false_] (py "/default/path")
           (Scenario.world Scenario.conf_full (Some Scenario.full_text))
           NoOptionError).
  vm_compute. reflexivity.
Defined.

(* ===================================================================== *)
(** ** More on the calls and the driver *)
(* ===================================================================== *)

Lemma bind_keywords_unknown :
  forall params name kwargs bound,
    In name (map fst kwargs) ->
    existsb (String.eqb name) params = false ->
    bind_keywords params bound kwargs = inl TypeError.
Proof.
  intros params name. induction kwargs as [|[n a] rest IH];
    intros bound Hin Hp; [destruct Hin|].
  simpl. destruct (existsb (String.eqb n) params) eqn:En; [|reflexivity].
  cbn [negb]. destruct (bound_to n bound); [reflexivity|].
  destruct Hin as [Hn | Hin].
  - simpl in Hn. subst n. congruence.
  - now apply IH.
Qed.

Lemma bind_positional_error :
  forall params pos e, bind_positional params pos = inl e -> e = TypeError.
Proof.
  induction params as [|p params IH]; intros [|a pos] e H; simpl in H;
    try discriminate.
  - congruence.
  - unfold exc_map, exc_bind in H.
    destruct (bind_positional params pos) eqn:E; [|discriminate].
    injection H as <-. now apply (IH pos).
Qed.

(** X12.  A call of [__find_conf_value] that passes a keyword argument
    whose name is not one of [conf], [key], [pipeline_args] and [default]
    raises [TypeError] before the body runs, whatever the other
    arguments are: nothing is printed, started or changed. *)
Theorem unknown_keyword_is_rejected :
  forall lower os_exec pos kwargs name w,
    In name (map fst kwargs) ->
    ~ In name find_conf_value_params ->
    call_find_conf_value lower os_exec pos kwargs w = (Raise TypeError, w).
Proof.
  intros lower os_exec pos kwargs name w Hin Hnot.
  assert (Hp : existsb (String.eqb name) find_conf_value_params = false).
  { destruct (existsb (String.eqb name) find_conf_value_params) eqn:E;
      [|reflexivity].
    apply existsb_exists in E as (p & Hp & He).
    apply String.eqb_eq in He. subst p. contradiction. }
  unfold call_find_conf_value, bind_arguments.
  destruct (bind_positional find_conf_value_params pos) as [e|bound] eqn:E.
  - apply bind_positional_error in E. subst e. reflexivity.
  - cbn [exc_bind].
    now rewrite (@bind_keywords_unknown _ name kwargs bound Hin Hp).
Qed.

Lemma unknown_keyword_is_rejected_witness :
  call_find_conf_value Scenario.lower_ascii Scenario.host [AConf]
    [("key", AStr (py "apache_conf_path"));
     ("command_args", APipeline [Scenario.echo_hello]);
     ("default", AStr (py "/default/path"))]%string
    (Scenario.world Scenario.conf_full None)
  = (Raise TypeError, Scenario.world Scenario.conf_full None).
Proof.
  apply (@unknown_keyword_is_rejected Scenario.lower_ascii Scenario.host
           [AConf] _ "command_args"%string).
  - simpl. auto.
  - simpl. intros [H | [H | [H | [H | []]]]]; discriminate.
Defined.

(** With the name of the parameter, the same call runs the body. *)
Example documented_keywords_are_accepted :
  forall lower os_exec key pipeline_args default,
    call_find_conf_value lower os_exec [AConf]
      [("key", AStr key); ("pipeline_args", APipeline pipeline_args);
       ("default", AStr default)]%string
    = find_conf_value lower os_exec key pipeline_args default.
Proof. reflexivity. Qed.

(** What the driver does once the required sections are there. *)
Lemma driver_first_call :
  forall lower ini_read os_exec w text,
    w_file w = Some text ->
    fst (ini_read text) = None ->
    has_section (snd (ini_read text)) (py "logs")
      && has_section (snd (ini_read text)) (py "runs") = true ->
    driver lower ini_read os_exec w
    = (Raise TypeError,
       {| w_conf := snd (ini_read text); w_file := w_file w;
          w_procs := w_procs w; w_printed := w_printed w |}).
Proof.
  intros * Hf He Hs. unfold driver.
  pose proof (@driver_reads ini_read w text Hf) as Hread.
  rewrite He in Hread.
  unfold bind at 1 in Hread. unfold bind at 1 2.
  destruct (put_conf empty_parser w) as [[[]|e0] w0] eqn:E0;
    [|discriminate].
  rewrite Hread.
  change (match [CONF_FILENAME] with [] => ?x | _ :: _ => ?y end) with y.
  unfold bind at 1. rewrite required_sections. cbn [w_conf].
  rewrite Hs.
  unfold bind at 1. now rewrite command_args_is_rejected.
Qed.

(** X13.  No run of the driver completes: whatever the file, the reader
    and the host, the driver ends with an exception, and it has then
    started no process, printed nothing and written nothing to the
    file. *)
Theorem driver_never_completes :
  forall lower ini_read os_exec w,
    exists e,
      fst (driver lower ini_read os_exec w) = Raise e
      /\ w_file (snd (driver lower ini_read os_exec w)) = w_file w
      /\ w_procs (snd (driver lower ini_read os_exec w)) = w_procs w
      /\ w_printed (snd (driver lower ini_read os_exec w)) = w_printed w.
Proof.
  intros lower ini_read os_exec w.
  destruct (w_file w) as [text|] eqn:Hf.
  - destruct (fst (ini_read text)) as [e|] eqn:He.
    + exists e.
      assert (H : driver lower ini_read os_exec w
                  = (Raise e,
                     {| w_conf := snd (ini_read text); w_file := w_file w;
                        w_procs := w_procs w; w_printed := w_printed w |})).
      { unfold driver.
        pose proof (@driver_reads ini_read w text Hf) as Hread.
        rewrite He in Hread.
        unfold bind at 1 in Hread. unfold bind at 1 2.
        destruct (put_conf empty_parser w) as [[[]|e0] w0] eqn:E0;
          [|discriminate].
        now rewrite Hread. }
      rewrite H. cbn [fst snd w_file w_procs w_printed]. auto.
    + destruct (has_section (snd (ini_read text)) (py "logs")
                && has_section (snd (ini_read text)) (py "runs")) eqn:Hs.
      * exists TypeError.
        rewrite (@driver_first_call lower ini_read os_exec w text Hf He Hs).
        cbn [fst snd w_file w_procs w_printed]. auto.
      * exists KeyError.
        rewrite (@driver_start lower ini_read os_exec w text Hf He Hs).
        cbn [fst snd w_file w_procs w_printed]. auto.
  - exists FileNotFoundError.
    assert (H : driver lower ini_read os_exec w
                = (Raise FileNotFoundError,
                   {| w_conf := empty_parser; w_file := w_file w;
                      w_procs := w_procs w; w_printed := w_printed w |})).
    { unfold driver, bind, put_conf, conf_read. cbn [w_file]. now rewrite Hf. }
    rewrite H. cbn [fst snd w_file w_procs w_printed]. rewrite Hf. auto.
Qed.

(* ===================================================================== *)
(** ** Cached values and the defaults of the parser *)
(* ===================================================================== *)

Lemma get_from_defaults :
  forall lower c key sectdict v,
    lookup (py "main") (sections c) = Some sectdict ->
    lookup (lower key) sectdict = None ->
    lookup (lower key) (defaults c) = Some (Some v) ->
    contains PERCENT v = false ->
    get lower c (py "main") key = inr (Some v).
Proof.
  intros lower c key sd v Hm Hk Hd Hv.
  unfold get, unify_values, optionxform. rewrite Hm.
  cbn [exc_bind]. rewrite Hk, Hd. unfold before_get, MAX_INTERPOLATION_DEPTH.
  now rewrite (@interpolate_plain lower _ _ v Hv).
Qed.

(** X14.  When the pipeline returns a non-zero code and the cached
    entry, as [conf.get] reads it back after interpolation, is a text
    that the check of [conf.set] rejects (the raw entry [100%%] is read
    back as [100%]), the call raises [ValueError] instead of returning
    the cached value, and the parser object is as it was. *)
Theorem unescaped_cached_value_raises :
  forall lower os_exec key pipeline_args default w r x v,
    fst (run_pipeline os_exec pipeline_args w) = Return r ->
    r_code r <> 0%Z ->
    get lower (w_conf w) (py "main") key = inr (Some (x :: v)) ->
    before_set (x :: v) = inl ValueError ->
    fst (find_conf_value lower os_exec key pipeline_args default w)
      = Raise ValueError
    /\ w_conf (snd (find_conf_value lower os_exec key pipeline_args default w))
       = w_conf w.
Proof.
  intros * Hr Hc Hg Hb.
  destruct (@resolver_takes_cached lower os_exec key pipeline_args default
              w r x v Hr Hc Hg) as (w2 & Hconf & Heq).
  rewrite Heq. unfold bind. rewrite conf_set_run.
  unfold set. rewrite Hb. cbn [exc_map exc_bind fst snd]. auto.
Qed.

Lemma unescaped_cached_value_raises_witness :
  fst (find_conf_value Scenario.lower_ascii Scenario.host
         (py "load") [Scenario.false_] (py "/default/path")
         (Scenario.world
            {| defaults := [];
               sections := [(py "main", [(py "load", Some (py "100%%"))])] |}
            None))
    = Raise ValueError
  /\ w_conf (snd (find_conf_value Scenario.lower_ascii Scenario.host
                    (py "load") [Scenario.false_] (py "/default/path")
                    (Scenario.world
                       {| defaults := [];
                          sections :=
                            [(py "main", [(py "load", Some (py "100%%"))])] |}
                       None)))
     = {| defaults := [];
          sections := [(py "main", [(py "load", Some (py "100%%"))])] |}.
Proof.
  apply (@unescaped_cached_value_raises Scenario.lower_ascii Scenario.host
           (py "load") [Scenario.false_] (py "/default/path")
           (Scenario.world
              {| defaults := [];
                 sections := [(py "main", [(py "load", Some (py "100%%"))])] |}
              None)
           {| r_stdout := VBytes []; r_stderr := VNone; r_code := 1 |}
           49%N (py "00%")).
  - vm_compute. reflexivity.
  - discriminate.
  - vm_compute. reflexivity.
  - vm_compute. reflexivity.
Defined.

(** X15.  When the pipeline returns a non-zero code and the key has no
    entry in [main] but a non-empty text without a percent sign in the
    defaults of the parser (the [DEFAULT] section of the file), the call
    does not raise: it returns the text of the defaults, not its own
    default argument, and copies it into [main]. *)
Theorem default_section_is_a_fallback :
  forall lower os_exec key pipeline_args default w r sectdict x v,
    fst (run_pipeline os_exec pipeline_args w) = Return r ->
    r_code r <> 0%Z ->
    lookup (py "main") (sections (w_conf w)) = Some sectdict ->
    lookup (lower key) sectdict = None ->
    lookup (lower key) (defaults (w_conf w)) = Some (Some (x :: v)) ->
    contains PERCENT (x :: v) = false ->
    fst (find_conf_value lower os_exec key pipeline_args default w)
      = Return (x :: v)
    /\ cached lower
         (w_conf (snd (find_conf_value lower os_exec key pipeline_args
                         default w))) key
       = Some (Some (x :: v))
    /\ defaults (w_conf (snd (find_conf_value lower os_exec key pipeline_args
                                default w)))
       = defaults (w_conf w).
Proof.
  intros * Hr Hc Hm Hk Hd Hp.
  destruct (@resolver_takes_cached lower os_exec key pipeline_args default
              w r x v Hr Hc
              (@get_from_defaults lower _ key sectdict _ Hm Hk Hd Hp))
    as (w2 & Hconf & Heq).
  rewrite Heq. rewrite <- Hconf in Hm |- *.
  destruct (@set_main_succeeds lower (w_conf w2) key (x :: v) sectdict Hm
              (@before_set_plain _ Hp)) as [c' Hset].
  unfold bind. rewrite conf_set_run, Hset. cbn [fst snd ret w_conf].
  split; [reflexivity|].
  apply set_main_cached in Hset as (Hcached & Hdef & _). auto.
Qed.

Lemma default_section_is_a_fallback_witness :
  fst (find_conf_value Scenario.lower_ascii Scenario.host
         (py "apache_conf_path") [Scenario.false_] (py "/default/path")
         (Scenario.world
            {| defaults := [(py "apache_conf_path", Some (py "/shared"))];
               sections := [(py "main", [])] |}
            None))
    = Return (py "/shared")
  /\ cached Scenario.lower_ascii
       (w_conf (snd (find_conf_value Scenario.lower_ascii Scenario.host
                       (py "apache_conf_path") [Scenario.false_]
                       (py "/default/path")
                       (Scenario.world
                          {| defaults :=
                               [(py "apache_conf_path", Some (py "/shared"))];
                             sections := [(py "main", [])] |}
                          None))))
       (py "apache_conf_path")
     = Some (Some (py "/shared"))
  /\ defaults
       (w_conf (snd (find_conf_value Scenario.lower_ascii Scenario.host
                       (py "apache_conf_path") [Scenario.false_]
                       (py "/default/path")
                       (Scenario.world
                          {| defaults :=
                               [(py "apache_conf_path", Some (py "/shared"))];
                             sections := [(py "main", [])] |}
                          None))))
     = defaults
         (w_conf (Scenario.world
                    {| defaults :=
                         [(py "apache_conf_path", Some (py "/shared"))];
                       sections := [(py "main", [])] |}
                    None)).
Proof.
  apply (@default_section_is_a_fallback Scenario.lower_ascii Scenario.host
           (py "apache_conf_path") [Scenario.false_] (py "/default/path")
           (Scenario.world
              {| defaults := [(py "apache_conf_path", Some (py "/shared"))];
                 sections := [(py "main", [])] |}
              None)
           {| r_stdout := VBytes []; r_stderr := VNone; r_code := 1 |}
           [] 47%N (py "shared")).
  - vm_compute. reflexivity.
  - discriminate.
  - reflexivity.
  - reflexivity.
  - vm_compute. reflexivity.
  - vm_compute. reflexivity.
Defined.

(* ===================================================================== *)
(** ** The value every branch chooses is written *)
(* ===================================================================== *)

(** Whichever branch chooses the value, the call goes on, in a state
    with the same parser object, with [conf.set] on that value. *)
Lemma resolver_chooses :
  forall lower os_exec key pipeline_args default w r value,
    fst (run_pipeline os_exec pipeline_args w) = Return r ->
    supplies lower (w_conf w) key default r value ->
    exists w2,
      w_conf w2 = w_conf w
      /\ find_conf_value lower os_exec key pipeline_args default w
         = (conf_set lower (py "main") key value ;; ret value) w2.
Proof.
  intros * Hr Hs. destruct Hs as [v Hc Hv | x v Hc Hg | cv Hc Hg Hn].
  - exact (@resolver_takes_stdout lower os_exec key pipeline_args default
             w r v Hr Hc Hv).
  - exact (@resolver_takes_cached lower os_exec key pipeline_args default
             w r x v Hr Hc Hg).
  - exact (@resolver_takes_default lower os_exec key pipeline_args default
             w r cv Hr Hc Hg Hn).
Qed.

(** C5 (amended).  For a call whose pipeline returns a record, in a
    parser object that has a [main] section: whichever branch supplies
    the value (the pipeline, the cached entry or the default), if the
    value passes the check of [conf.set] the call returns it and it is
    the entry of [main] under the key when the call returns, whatever
    was cached there before; if it is a non-empty text that the check
    rejects, the call raises [ValueError], returns nothing and leaves the
    parser object as it was. *)
Theorem resolved_value_is_written :
  forall lower os_exec key pipeline_args default w r value sectdict,
    fst (run_pipeline os_exec pipeline_args w) = Return r ->
    supplies lower (w_conf w) key default r value ->
    lookup (py "main") (sections (w_conf w)) = Some sectdict ->
    (before_set value = inr value ->
     fst (find_conf_value lower os_exec key pipeline_args default w)
       = Return value
     /\ cached lower
          (w_conf (snd (find_conf_value lower os_exec key pipeline_args
                          default w))) key
        = Some (Some value))
    /\ (value <> [] ->
        before_set value = inl ValueError ->
        fst (find_conf_value lower os_exec key pipeline_args default w)
          = Raise ValueError
        /\ w_conf (snd (find_conf_value lower os_exec key pipeline_args
                          default w))
           = w_conf w).
Proof.
  intros * Hr Hs Hm.
  destruct (@resolver_chooses lower os_exec key pipeline_args default
              w r value Hr Hs) as (w2 & Hconf & Heq).
  rewrite Heq. rewrite <- Hconf in Hm |- *. split.
  - intros Hb.
    destruct (@set_main_succeeds lower (w_conf w2) key value sectdict Hm Hb)
      as [c' Hset].
    unfold bind. rewrite conf_set_run, Hset. cbn [fst snd ret w_conf].
    split; [reflexivity|].
    apply set_main_cached in Hset as [Hset _]. exact Hset.
  - intros Hne Hb. unfold bind. rewrite conf_set_run.
    destruct value as [|x value]; [contradiction|].
    unfold set. rewrite Hb. cbn [exc_map exc_bind fst snd]. auto.
Qed.

(** The three branches on the example host: the pipeline [echo hello]
    overwrites the cached path, the failing pipeline returns the cached
    path, and the valueless entry gives the default. *)
Lemma resolved_value_is_written_witness :
  (fst (find_conf_value Scenario.lower_ascii Scenario.host
          (py "apache_conf_path") [Scenario.echo_hello] (py "/default/path")
          (Scenario.world Scenario.conf_full None))
     = Return (py "hello")
   /\ cached Scenario.lower_ascii
        (w_conf (snd (find_conf_value Scenario.lower_ascii Scenario.host
                        (py "apache_conf_path") [Scenario.echo_hello]
                        (py "/default/path")
                        (Scenario.world Scenario.conf_full None))))
        (py "apache_conf_path")
      = Some (Some (py "hello")))
  /\ (fst (find_conf_value Scenario.lower_ascii Scenario.host
             (py "apache_conf_path") [Scenario.false_] (py "/default/path")
             (Scenario.world Scenario.conf_full None))
        = Return (py "/cached/httpd.conf")
      /\ cached Scenario.lower_ascii
           (w_conf (snd (find_conf_value Scenario.lower_ascii Scenario.host
                           (py "apache_conf_path") [Scenario.false_]
                           (py "/default/path")
                           (Scenario.world Scenario.conf_full None))))
           (py "apache_conf_path")
         = Some (Some (py "/cached/httpd.conf")))
  /\ (fst (find_conf_value Scenario.lower_ascii Scenario.host
             (py "no_value") [Scenario.false_] (py "/default/path")
             (Scenario.world Scenario.conf_full None))
        = Return (py "/default/path")
      /\ cached Scenario.lower_ascii
           (w_conf (snd (find_conf_value Scenario.lower_ascii Scenario.host
                           (py "no_value") [Scenario.false_]
                           (py "/default/path")
                           (Scenario.world Scenario.conf_full None))))
           (py "no_value")
         = Some (Some (py "/default/path"))).
Proof.
  split; [|split].
  - apply (proj1 (@resolved_value_is_written Scenario.lower_ascii
                    Scenario.host (py "apache_conf_path")
                    [Scenario.echo_hello] (py "/default/path")
                    (Scenario.world Scenario.conf_full None)
                    {| r_stdout := VStr (py "hello"); r_stderr := VNone;
                       r_code := 0 |}
                    (py "hello")
                    (snd (hd (py "main", []) (sections Scenario.conf_full)))
                    ltac:(vm_compute; reflexivity)
                    ltac:(apply from_pipeline; reflexivity)
                    ltac:(vm_compute; reflexivity))).
    vm_compute. reflexivity.
  - apply (proj1 (@resolved_value_is_written Scenario.lower_ascii
                    Scenario.host (py "apache_conf_path")
                    [Scenario.false_] (py "/default/path")
                    (Scenario.world Scenario.conf_full None)
                    {| r_stdout := VBytes []; r_stderr := VNone;
                       r_code := 1 |}
                    (py "/cached/httpd.conf")
                    (snd (hd (py "main", []) (sections Scenario.conf_full)))
                    ltac:(vm_compute; reflexivity)
                    ltac:(apply (@from_cache _ _ _ _ _ 47%N
                                   (py "cached/httpd.conf"));
                          [discriminate | vm_compute; reflexivity])
                    ltac:(vm_compute; reflexivity))).
    vm_compute. reflexivity.
  - apply (proj1 (@resolved_value_is_written Scenario.lower_ascii
                    Scenario.host (py "no_value")
                    [Scenario.false_] (py "/default/path")
                    (Scenario.world Scenario.conf_full None)
                    {| r_stdout := VBytes []; r_stderr := VNone;
                       r_code := 1 |}
                    (py "/default/path")
                    (snd (hd (py "main", []) (sections Scenario.conf_full)))
                    ltac:(vm_compute; reflexivity)
                    ltac:(apply (@from_default _ _ _ _ _ None);
                          [discriminate | vm_compute; reflexivity
                          | reflexivity])
                    ltac:(vm_compute; reflexivity))).
    vm_compute. reflexivity.
Defined.

(** C5, as stated, fails: on a host whose command writes [100%] and
    exits with status 0, the pipeline supplies the value [100%], but
    [conf.set] rejects it: the call raises [ValueError], and the entry of
    [main] under the key is still the path cached before, not the value
    the pipeline supplied. *)
Lemma percent_output_is_not_written :
  fst (run_pipeline Scenario.percent_host [Scenario.echo_hello]
         (Scenario.world Scenario.conf_full None))
    = Return {| r_stdout := VStr (py "100%"); r_stderr := VNone;
                r_code := 0 |}
  /\ fst (find_conf_value Scenario.lower_ascii Scenario.percent_host
            (py "apache_conf_path") [Scenario.echo_hello]
            (py "/default/path")
            (Scenario.world Scenario.conf_full None))
     = Raise ValueError
  /\ cached Scenario.lower_ascii
       (w_conf (snd (find_conf_value Scenario.lower_ascii
                       Scenario.percent_host
                       (py "apache_conf_path") [Scenario.echo_hello]
                       (py "/default/path")
                       (Scenario.world Scenario.conf_full None))))
       (py "apache_conf_path")
     = Some (Some (py "/cached/httpd.conf")).
Proof. vm_compute. repeat split. Qed.

(* ===================================================================== *)
(** ** Every command of the pipeline is started and connected *)
(* ===================================================================== *)

(** C7 (amended).  For a pipeline of at least one command (so of two or
    more) whose commands can all be started and terminate, the runner
    starts exactly one process per command, in order; the first is
    created with [stdin=None], that is with the standard input of the
    script itself, not redirected; every other one is created with the
    pipe that carries the standard output of the process before it, and
    what each process writes there is what its command produces on that
    input.  The outcome is read off the last process alone: its exit
    status and its converted standard output, or the error of that
    conversion. *)
Theorem pipeline_connects_every_command :
  forall os_exec args_ w,
    args_ <> [] ->
    (forall a, In a args_ -> completes os_exec a) ->
    exists ps last,
      w_procs (snd (run_pipeline os_exec args_ w)) = w_procs w ++ ps
      /\ map args ps = args_
      /\ piped None ps
      /\ Forall (started os_exec) ps
      /\ last_started None ps = Some last
      /\ fst (run_pipeline os_exec args_ w)
         = match convert (of_stream (stdout last)) with
           | inl e => Raise e
           | inr so =>
               Return {| r_stdout := so; r_stderr := VNone;
                         r_code := returncode last |}
           end.
Proof.
  intros os_exec args_ w Hne Hall.
  destruct (run_pipeline_spec os_exec args_ w) as (ps & Hw & Hp & Hs & _ & Hr).
  exists ps. rewrite Hw.
  destruct (fst (run_pipeline os_exec args_ w)) as [r|e].
  - destruct Hr as (Hm & last & Hl & Hcode & Herr & _ & Hconv).
    exists last. rewrite Hconv. destruct r as [so se code].
    cbn [r_code r_stderr r_stdout] in *. subst se code.
    repeat split; auto.
  - destruct Hr as [(Hnil & _) | [(a & Hn & _ & Ha) | (Hm & last & Hl & _ & Hconv)]].
    + contradiction.
    + exfalso. apply nth_error_In in Hn.
      destruct (Hall a Hn) as [bh Hb]. congruence.
    + exists last. rewrite Hconv. repeat split; auto.
Qed.

Lemma pipeline_connects_every_command_witness :
  exists ps last,
    w_procs (snd (run_pipeline Scenario.host
                    [Scenario.echo_hello; Scenario.cat; Scenario.cat]
                    (Scenario.world empty_parser None)))
      = w_procs (Scenario.world empty_parser None) ++ ps
    /\ map args ps = [Scenario.echo_hello; Scenario.cat; Scenario.cat]
    /\ piped None ps
    /\ Forall (started Scenario.host) ps
    /\ last_started None ps = Some last
    /\ fst (run_pipeline Scenario.host
              [Scenario.echo_hello; Scenario.cat; Scenario.cat]
              (Scenario.world empty_parser None))
       = match convert (of_stream (stdout last)) with
         | inl e => Raise e
         | inr so =>
             Return {| r_stdout := so; r_stderr := VNone;
                       r_code := returncode last |}
         end.
Proof.
  apply (@pipeline_connects_every_command Scenario.host
           [Scenario.echo_hello; Scenario.cat; Scenario.cat]
           (Scenario.world empty_parser None)).
  - discriminate.
  - intros a [<- | [<- | [<- | []]]]; unfold completes; eexists;
      vm_compute; reflexivity.
Defined.

(** C7, as stated, fails on its first command: started by a script
    whose own standard input carries [typed] and a line feed, the
    pipeline [cat | cat] returns [typed], because the first [cat] is
    created with [stdin=None] and reads the standard input it inherits;
    a first command that received no input would leave nothing to
    return. *)
Lemma first_command_reads_inherited_stdin :
  fst (run_pipeline
         (Scenario.inheriting_host (b "typed" ++ [Scenario.LFb]))
         [Scenario.cat; Scenario.cat]
         (Scenario.world empty_parser None))
    = Return {| r_stdout := VStr (py "typed"); r_stderr := VNone;
                r_code := 0 |}
  /\ map stdin
       (w_procs (snd (run_pipeline
                        (Scenario.inheriting_host
                           (b "typed" ++ [Scenario.LFb]))
                        [Scenario.cat; Scenario.cat]
                        (Scenario.world empty_parser None))))
     = [None; Some (b "typed" ++ [Scenario.LFb])]
  /\ chain_output (Scenario.inheriting_host (b "typed" ++ [Scenario.LFb]))
       None [Scenario.cat; Scenario.cat]
     = Some (b "typed" ++ [Scenario.LFb])
  /\ chain_output (Scenario.inheriting_host (b "typed" ++ [Scenario.LFb]))
       (Some []) [Scenario.cat; Scenario.cat]
     = Some [].
Proof. vm_compute. repeat split. Qed.
